(** * datasketches-go: CPC compressed state and frequent-items sketch

    A shallow embedding of [cpc/cpc_compressed_state.go] and of the
    frequent-items sketch exercised by [frequencies/iterms_sketch_test.go],
    together with the properties stated about them.

    Conventions.
    - Go's [int] is the 64-bit two's-complement integer of the usual
      targets; every arithmetic result is wrapped with [GoInt.int].
    - A Go call can return normally, return a non-nil [error], or panic;
      the three are the constructors of [outcome].
    - Functions of the package that live in other files (the preamble
      accessors, the sketch constructor) are the fields of the classes
      [PreambleUtil] and [SketchOps]; every theorem about the code holds
      for all their instances. *)

From Stdlib Require Import ZArith List Bool Lia String.
From Stdlib Require Import Strings.Byte.
From Stdlib Require Import Floats.SpecFloat.
From stdpp Require Import base option list gmap strings sorting.

Local Open Scope string_scope.
Local Open Scope Z_scope.

(** ** Go machine integers *)

Module GoInt.

(** Two's-complement wrap-around to [w] bits. *)
Definition wrap_signed (w x : Z) : Z :=
  (x + 2 ^ (w - 1)) mod 2 ^ w - 2 ^ (w - 1).

Definition int (x : Z) : Z := wrap_signed 64 x.
Definition int64 (x : Z) : Z := wrap_signed 64 x.
Definition int16 (x : Z) : Z := wrap_signed 16 x.
Definition uint64 (x : Z) : Z := x mod 2 ^ 64.

Definition in_int (x : Z) : Prop := - 2 ^ 63 <= x < 2 ^ 63.

(** [float64] values, as IEEE 754 binary64 specification floats. *)
Definition float64 : Type := spec_float.

(** The conversion [float64(n)] of an integer: round to nearest even. *)
Definition float64_of_int (n : Z) : float64 :=
  binary_normalize 53 1024 n 0 false.

(** The value denoted by the 64 bits of a binary64 number. *)
Definition float64_of_bits (b : Z) : float64 :=
  let s := Z.testbit b 63 in
  let e := Z.land (Z.shiftr b 52) 2047 in
  let m := Z.land b (2 ^ 52 - 1) in
  if e =? 0 then
    match m with
    | Zpos p => S754_finite s p (-1074)
    | _ => S754_zero s
    end
  else if e =? 2047 then
    if m =? 0 then S754_infinity s else S754_nan
  else
    match m + 2 ^ 52 with
    | Zpos p => S754_finite s p (e - 1075)
    | _ => S754_nan
    end.

End GoInt.

(** ** Outcomes of a Go call *)

Definition error : Type := string.

Inductive outcome (A : Type) : Type :=
| Ok (a : A)          (* normal return, [err == nil] *)
| Err (e : error)     (* a non-nil [error] is returned *)
| Panic (msg : string).

Arguments Ok {A} a.
Arguments Err {A} e.
Arguments Panic {A} msg.

#[global] Instance outcome_ret : MRet outcome := fun A a => Ok a.

#[global] Instance outcome_bind : MBind outcome := fun A B f m =>
  match m with
  | Ok a => f a
  | Err e => Err e
  | Panic msg => Panic msg
  end.

(** The call returned, with a value or with an error: it did not panic. *)
Definition returns {A : Type} (r : outcome A) : Prop :=
  (exists a, r = Ok a) \/ (exists e, r = Err e).

(** ** CPC compressed state *)

Module Cpc.
Import GoInt.

(** Modelled from the spec: the type [CpcFormat] and its eight constants
    are declared outside [cpc_compressed_state.go]; the ordinals are
    those of the format table (section 3.2).  [CpcFormat] is a named
    [int], so a conversion [CpcFormat(n)] keeps any [n]. *)
Definition CpcFormat : Type := Z.

Definition CpcformatEmptyMerged : CpcFormat := 0.
Definition CpcFormatEmptyHip : CpcFormat := 1.
Definition CpcFormatSparseHybridMerged : CpcFormat := 2.
Definition CpcFormatSparceHybridHip : CpcFormat := 3.
Definition CpcFormatPinnedSlidingMergedNosv : CpcFormat := 4.
Definition CpcFormatPinnedSlidingHipNosv : CpcFormat := 5.
Definition CpcFormatPinnedSlidingMerged : CpcFormat := 6.
Definition CpcFormatPinnedSlidingHip : CpcFormat := 7.

Record CpcCompressedState : Type := mkState {
  CsvIsValid : bool;
  WindowIsValid : bool;
  LgK : Z;
  SeedHash : Z;            (* int16 *)
  FiCol : Z;
  MergeFlag : bool;        (* compliment of HIP Flag *)
  NumCoupons : Z;          (* uint64 *)
  Kxp : float64;
  HipEstAccum : float64;
  NumCsv : Z;
  CsvStream : list Z;      (* may be longer than required *)
  CsvLengthInts : Z;
  CwStream : list Z;       (* may be longer than required *)
  CwLengthInts : Z
}.

(** Field assignments [c.F = v]. *)
Definition set_CsvIsValid (v : bool) (c : CpcCompressedState) :=
  let '(mkState _ b d e f g h i j k l m n o) := c in
  mkState v b d e f g h i j k l m n o.
Definition set_WindowIsValid (v : bool) (c : CpcCompressedState) :=
  let '(mkState a _ d e f g h i j k l m n o) := c in
  mkState a v d e f g h i j k l m n o.
Definition set_SeedHash (v : Z) (c : CpcCompressedState) :=
  let '(mkState a b d _ f g h i j k l m n o) := c in
  mkState a b d v f g h i j k l m n o.
Definition set_MergeFlag (v : bool) (c : CpcCompressedState) :=
  let '(mkState a b d e f _ h i j k l m n o) := c in
  mkState a b d e f v h i j k l m n o.
Definition set_NumCoupons (v : Z) (c : CpcCompressedState) :=
  let '(mkState a b d e f g _ i j k l m n o) := c in
  mkState a b d e f g v i j k l m n o.
Definition set_Kxp (v : float64) (c : CpcCompressedState) :=
  let '(mkState a b d e f g h _ j k l m n o) := c in
  mkState a b d e f g h v j k l m n o.
Definition set_HipEstAccum (v : float64) (c : CpcCompressedState) :=
  let '(mkState a b d e f g h i _ k l m n o) := c in
  mkState a b d e f g h i v k l m n o.
Definition set_NumCsv (v : Z) (c : CpcCompressedState) :=
  let '(mkState a b d e f g h i j _ l m n o) := c in
  mkState a b d e f g h i j v l m n o.
Definition set_CsvStream (v : list Z) (c : CpcCompressedState) :=
  let '(mkState a b d e f g h i j k _ m n o) := c in
  mkState a b d e f g h i j k v m n o.
Definition set_CsvLengthInts (v : Z) (c : CpcCompressedState) :=
  let '(mkState a b d e f g h i j k l _ n o) := c in
  mkState a b d e f g h i j k l v n o.

(** This defines the preamble space required by each of the formats in
    units of 4-byte integers. *)
Definition preIntsDefs : list byte :=
  [x02; x02; x04; x08; x04; x08; x06; x0a]%byte.

(** [int(1) << lgK]: a negative shift count panics, a count of 64 or
    more shifts every bit out. *)
Definition shl_int (x n : Z) : outcome Z :=
  if n <? 0 then Panic "negative shift amount"
  else Ok (int (Z.shiftl x n)).

Definition NewCpcCompressedState (lgK seedHash : Z)
  : outcome CpcCompressedState :=
  k ← shl_int 1 lgK;
  Ok {| CsvIsValid := false; WindowIsValid := false;
        LgK := lgK; SeedHash := seedHash; FiCol := 0;
        MergeFlag := false; NumCoupons := 0;
        Kxp := float64_of_int k; HipEstAccum := S754_zero false;
        NumCsv := 0; CsvStream := []; CsvLengthInts := 0;
        CwStream := []; CwLengthInts := 0 |}.

Definition getFormat (c : CpcCompressedState) : CpcFormat :=
  let ordinal := 0 in
  let ordinal := if 0 <? CwLengthInts c then Z.lor ordinal 4 else ordinal in
  let ordinal := if 0 <? NumCsv c then Z.lor ordinal 2 else ordinal in
  let ordinal := if MergeFlag c then Z.lor ordinal 1 else ordinal in
  ordinal.

(** [int(preIntsDefs[format])]; indexing outside the slice panics. *)
Definition getDefinedPreInts (format : CpcFormat) : outcome Z :=
  if format <? 0 then Panic "index out of range"
  else match preIntsDefs !! Z.to_nat format with
       | Some b => Ok (Z.of_N (Byte.to_N b))
       | None => Panic "index out of range"
       end.

(** The preamble-ints column of the format table as the specification
    states it (section 3.2), to compare [getDefinedPreInts] with. *)
Definition pre_ints (ordinal : Z) : Z :=
  match ordinal with
  | 0 => 2 | 1 => 2 | 2 => 4 | 3 => 8
  | 4 => 4 | 5 => 8 | 6 => 6 | 7 => 10
  | _ => 0
  end.

Definition getRequiredSerializedBytes (c : CpcCompressedState) : outcome Z :=
  preInts ← getDefinedPreInts (getFormat c);
  Ok (int (4 * int (int (preInts + CsvLengthInts c) + CwLengthInts c))).

(** Modelled from the spec: the struct [CpcSketch] is declared outside
    [cpc_compressed_state.go]; these are the fields [uncompress] assigns
    (section 4.2), with the two constructor arguments.  A nil
    [slidingWindow] or [pairTable] is [None]. *)
Record CpcSketch : Type := mkSketch {
  lgK : Z;
  seed : Z;                (* uint64 *)
  numCoupons : Z;          (* uint64 *)
  windowOffset : Z;
  fiCol : Z;
  mergeFlag : bool;
  kxp : float64;
  hipEstAccum : float64;
  slidingWindow : option (list byte);
  pairTable : option (list Z)
}.

Definition set_numCoupons (v : Z) (s : CpcSketch) :=
  let '(mkSketch a b _ d e f g h i j) := s in mkSketch a b v d e f g h i j.
Definition set_windowOffset (v : Z) (s : CpcSketch) :=
  let '(mkSketch a b c _ e f g h i j) := s in mkSketch a b c v e f g h i j.
Definition set_fiCol (v : Z) (s : CpcSketch) :=
  let '(mkSketch a b c d _ f g h i j) := s in mkSketch a b c d v f g h i j.
Definition set_mergeFlag (v : bool) (s : CpcSketch) :=
  let '(mkSketch a b c d e _ g h i j) := s in mkSketch a b c d e v g h i j.
Definition set_kxp (v : float64) (s : CpcSketch) :=
  let '(mkSketch a b c d e f _ h i j) := s in mkSketch a b c d e f v h i j.
Definition set_hipEstAccum (v : float64) (s : CpcSketch) :=
  let '(mkSketch a b c d e f g _ i j) := s in mkSketch a b c d e f g v i j.
Definition set_slidingWindow (v : option (list byte)) (s : CpcSketch) :=
  let '(mkSketch a b c d e f g h _ j) := s in mkSketch a b c d e f g h v j.
Definition set_pairTable (v : option (list Z)) (s : CpcSketch) :=
  let '(mkSketch a b c d e f g h i _) := s in mkSketch a b c d e f g h i v.

(** The functions of package [cpc] that [uncompress] calls and that are
    defined in other files: the sketch constructor, which can fail, and
    the window-offset function. *)
Class SketchOps : Type := {
  NewCpcSketch : Z -> Z -> outcome CpcSketch;
  determineCorrectOffset : Z -> Z -> outcome Z
}.

(** Modelled from the spec: the preamble accessors that
    [importFromMemory] calls are defined in other files of the package,
    so they are parameters here.  The one fact assumed of them comes from
    section 6.2: [num_coupons] is carried by one 32-bit word of the
    image, which [getNumCoupons] returns as a [uint64]. *)
Class PreambleUtil : Type := {
  checkLoPreamble : list byte -> outcome unit;
  isCompressed : list byte -> outcome bool;
  getLgK : list byte -> outcome Z;
  getSeedHash : list byte -> outcome Z;
  getFormatOrdinal : list byte -> outcome Z;
  getNumCoupons : list byte -> outcome Z;
  getSvLengthInts : list byte -> outcome Z;
  getKxP : list byte -> outcome float64;
  getHipAccum : list byte -> outcome float64;
  getSvStream : list byte -> outcome (list Z);
  checkCapacity : Z -> Z -> outcome unit;
  getNumCoupons_word :
    forall bytes n, getNumCoupons bytes = Ok n -> 0 <= n < 2 ^ 32
}.

Definition len {A : Type} (l : list A) : Z := Z.of_nat (length l).

Section Uncompress.
Context {ops : SketchOps}.

Definition getWindowOffset (c : CpcCompressedState) : outcome Z :=
  determineCorrectOffset (LgK c) (NumCoupons c).

(** The seed-hash check of the reference implementation,
    [ThetaUtil.checkSeedHashes(ThetaUtil.computeSeedHash(seed), c.SeedHash)],
    is a comment in the Go function. *)
Definition uncompress (c : CpcCompressedState) (seed : Z)
  : outcome CpcSketch :=
  sketch ← NewCpcSketch (LgK c) seed;
  let sketch := set_numCoupons (NumCoupons c) sketch in
  wo ← getWindowOffset c;
  let sketch := set_windowOffset wo sketch in
  let sketch := set_fiCol (FiCol c) sketch in
  let sketch := set_mergeFlag (MergeFlag c) sketch in
  let sketch := set_kxp (Kxp c) sketch in
  let sketch := set_hipEstAccum (HipEstAccum c) sketch in
  let sketch := set_slidingWindow None sketch in
  let sketch := set_pairTable None sketch in
  Ok sketch.
End Uncompress.

Section Importing.
Context {pre : PreambleUtil}.

Definition importFromMemory (bytes : list byte)
  : outcome CpcCompressedState :=
  checkLoPreamble bytes;;
  compressed ← isCompressed bytes;
  if negb compressed then Err "not compressed" else
  lgK ← getLgK bytes;
  seedHash ← getSeedHash bytes;
  state ← NewCpcCompressedState lgK seedHash;
  fmtOrd ← getFormatOrdinal bytes;
  let format : CpcFormat := fmtOrd in
  let state := set_MergeFlag (Z.land fmtOrd 1 =? 0) state in
  let state := set_CsvIsValid (0 <? Z.land fmtOrd 2) state in
  let state := set_WindowIsValid (0 <? Z.land fmtOrd 4) state in
  if (format =? CpcformatEmptyMerged) || (format =? CpcFormatEmptyHip) then
    checkCapacity (len bytes) 8;;
    Ok state
  else if format =? CpcFormatSparseHybridMerged then
    n ← getNumCoupons bytes;
    let state := set_NumCoupons n state in
    let state := set_NumCsv (int (NumCoupons state)) state in
    sv ← getSvLengthInts bytes;
    let state := set_CsvLengthInts sv state in
    required ← getRequiredSerializedBytes state;
    checkCapacity (len bytes) required;;
    stream ← getSvStream bytes;
    Ok (set_CsvStream stream state)
  else if format =? CpcFormatSparceHybridHip then
    n ← getNumCoupons bytes;
    let state := set_NumCoupons n state in
    let state := set_NumCsv (int (NumCoupons state)) state in
    sv ← getSvLengthInts bytes;
    let state := set_CsvLengthInts sv state in
    x ← getKxP bytes;
    let state := set_Kxp x state in
    h ← getHipAccum bytes;
    let state := set_HipEstAccum h state in
    required ← getRequiredSerializedBytes state;
    checkCapacity (len bytes) required;;
    stream ← getSvStream bytes;
    Ok (set_CsvStream stream state)
  else Panic "not implemented".

(** [importFromMemory] reaches its format switch on [bytes]: both checks
    have passed and the header accessors have returned; [st0] is the
    state from [NewCpcCompressedState] and [ord] the format ordinal. *)
Definition reaches_switch
    (bytes : list byte) (st0 : CpcCompressedState) (ord : Z) : Prop :=
  checkLoPreamble bytes = Ok tt
  /\ isCompressed bytes = Ok true
  /\ exists lgK seedHash,
       getLgK bytes = Ok lgK /\ getSeedHash bytes = Ok seedHash
       /\ NewCpcCompressedState lgK seedHash = Ok st0
       /\ getFormatOrdinal bytes = Ok ord.

(** The state at the capacity check of a SPARSE_HYBRID arm, as far as
    [getRequiredSerializedBytes] reads it ([n] coupons, [sv] stream
    words; the validity flags and, for ordinal 3, [Kxp] and
    [HipEstAccum] are set as well by then). *)
Definition sparse_state
    (st0 : CpcCompressedState) (ord n sv : Z) : CpcCompressedState :=
  set_CsvLengthInts sv
    (set_NumCsv (int n)
       (set_NumCoupons n (set_MergeFlag (Z.land ord 1 =? 0) st0))).

(** [importFromMemory] reaches the capacity check of a SPARSE_HYBRID arm
    on [bytes], with [r] the required size it passes to
    [checkCapacity]. *)
Definition reaches_capacity_check
    (bytes : list byte) (st0 : CpcCompressedState) (ord n sv r : Z) : Prop :=
  reaches_switch bytes st0 ord
  /\ (ord = 2
      \/ ord = 3 /\ (exists x, getKxP bytes = Ok x)
                 /\ (exists h, getHipAccum bytes = Ok h))
  /\ getNumCoupons bytes = Ok n
  /\ getSvLengthInts bytes = Ok sv
  /\ getRequiredSerializedBytes (sparse_state st0 ord n sv) = Ok r.

(** A function that [importFromMemory] calls on [bytes] panics with
    message [msg].  There is one constructor for each call of the
    function body; its premises say that the calls before it have
    returned what leads to this call, so a function that is not called on
    [bytes], or not with these arguments, does not count. *)
Inductive callee_panics (bytes : list byte) (msg : string) : Prop :=
| panics_checkLoPreamble :
    checkLoPreamble bytes = Panic msg ->
    callee_panics bytes msg
| panics_isCompressed :
    checkLoPreamble bytes = Ok tt ->
    isCompressed bytes = Panic msg ->
    callee_panics bytes msg
| panics_getLgK :
    checkLoPreamble bytes = Ok tt -> isCompressed bytes = Ok true ->
    getLgK bytes = Panic msg ->
    callee_panics bytes msg
| panics_getSeedHash lgK :
    checkLoPreamble bytes = Ok tt -> isCompressed bytes = Ok true ->
    getLgK bytes = Ok lgK ->
    getSeedHash bytes = Panic msg ->
    callee_panics bytes msg
| panics_NewCpcCompressedState lgK seedHash :
    checkLoPreamble bytes = Ok tt -> isCompressed bytes = Ok true ->
    getLgK bytes = Ok lgK -> getSeedHash bytes = Ok seedHash ->
    NewCpcCompressedState lgK seedHash = Panic msg ->
    callee_panics bytes msg
| panics_getFormatOrdinal lgK seedHash st0 :
    checkLoPreamble bytes = Ok tt -> isCompressed bytes = Ok true ->
    getLgK bytes = Ok lgK -> getSeedHash bytes = Ok seedHash ->
    NewCpcCompressedState lgK seedHash = Ok st0 ->
    getFormatOrdinal bytes = Panic msg ->
    callee_panics bytes msg
| panics_checkCapacity_empty st0 ord :
    reaches_switch bytes st0 ord -> ord = 0 \/ ord = 1 ->
    checkCapacity (len bytes) 8 = Panic msg ->
    callee_panics bytes msg
| panics_getNumCoupons st0 ord :
    reaches_switch bytes st0 ord -> ord = 2 \/ ord = 3 ->
    getNumCoupons bytes = Panic msg ->
    callee_panics bytes msg
| panics_getSvLengthInts st0 ord n :
    reaches_switch bytes st0 ord -> ord = 2 \/ ord = 3 ->
    getNumCoupons bytes = Ok n ->
    getSvLengthInts bytes = Panic msg ->
    callee_panics bytes msg
| panics_getKxP st0 n sv :
    reaches_switch bytes st0 3 ->
    getNumCoupons bytes = Ok n -> getSvLengthInts bytes = Ok sv ->
    getKxP bytes = Panic msg ->
    callee_panics bytes msg
| panics_getHipAccum st0 n sv x :
    reaches_switch bytes st0 3 ->
    getNumCoupons bytes = Ok n -> getSvLengthInts bytes = Ok sv ->
    getKxP bytes = Ok x ->
    getHipAccum bytes = Panic msg ->
    callee_panics bytes msg
| panics_checkCapacity_sparse st0 ord n sv r :
    reaches_capacity_check bytes st0 ord n sv r ->
    checkCapacity (len bytes) r = Panic msg ->
    callee_panics bytes msg
| panics_getSvStream st0 ord n sv r :
    reaches_capacity_check bytes st0 ord n sv r ->
    checkCapacity (len bytes) r = Ok tt ->
    getSvStream bytes = Panic msg ->
    callee_panics bytes msg.
End Importing.

End Cpc.


(** ** Frequent-items sketch *)

Module Frequencies.
Import GoInt.

(** Modelled from the spec: the constant [_LG_MIN_MAP_SIZE] is declared
    outside the test file; section 6.3 gives its value as 3. *)
Definition _LG_MIN_MAP_SIZE : Z := 3.

Section ItemsSketch.
Context {K : Type} `{Countable K}.

(** Modelled from the spec: the sketch type [ItemsSketch] is implemented
    outside [iterms_sketch_test.go]; this is the essential state of
    section 3.1, the counter table being a finite map from items to
    signed 64-bit counts. *)
Record ItemsSketch : Type := mkItemsSketch {
  lg_max_map_size : Z;
  lg_cur_map_size : Z;
  counter_map : gmap K Z;
  offset : Z;
  stream_length : Z;
  hasher : K -> Z
}.

Definition set_counter_map (m : gmap K Z) (s : ItemsSketch) : ItemsSketch :=
  let '(mkItemsSketch a b _ d e f) := s in mkItemsSketch a b m d e f.
Definition set_lg_cur_map_size (v : Z) (s : ItemsSketch) : ItemsSketch :=
  let '(mkItemsSketch a _ c d e f) := s in mkItemsSketch a v c d e f.
Definition set_offset (v : Z) (s : ItemsSketch) : ItemsSketch :=
  let '(mkItemsSketch a b c _ e f) := s in mkItemsSketch a b c v e f.
Definition set_stream_length (v : Z) (s : ItemsSketch) : ItemsSketch :=
  let '(mkItemsSketch a b c d _ f) := s in mkItemsSketch a b c d v f.

Definition InvalidArgument : error := "InvalidArgument".

(** Modelled from the spec: [new(lg_max_map_size, hasher)] gives the empty
    sketch and fails with [InvalidArgument] below the minimum size. *)
Definition new (lg_max : Z) (h : K -> Z) : outcome ItemsSketch :=
  if lg_max <? _LG_MIN_MAP_SIZE then Err InvalidArgument
  else Ok {| lg_max_map_size := lg_max;
             lg_cur_map_size := _LG_MIN_MAP_SIZE;
             counter_map := ∅; offset := 0; stream_length := 0;
             hasher := h |}.

(** Modelled from the spec: [stored(k)] is the count of [k] in the table
    and 0 if [k] is absent; an item of a nullable type is an [option K],
    the nil sentinel being [None], which is never a key. *)
Definition lookup_item (s : ItemsSketch) (item : option K) : option Z :=
  k ← item; counter_map s !! k.

Definition stored (s : ItemsSketch) (item : option K) : Z :=
  default 0 (lookup_item s item).

Definition get_num_active_items (s : ItemsSketch) : Z :=
  Z.of_nat (size (counter_map s)).

Definition is_empty (s : ItemsSketch) : bool :=
  get_num_active_items s =? 0.

Definition get_stream_length (s : ItemsSketch) : Z := stream_length s.

(** Modelled from the spec: the three point queries of section 4.1; none
    of them fails. *)
Definition get_estimate (s : ItemsSketch) (item : option K) : outcome Z :=
  Ok (stored s item).

Definition get_lower_bound (s : ItemsSketch) (item : option K) : outcome Z :=
  Ok (stored s item).

Definition get_upper_bound (s : ItemsSketch) (item : option K) : outcome Z :=
  Ok (int64 (stored s item + offset s)).

Definition capacity (s : ItemsSketch) : Z := 2 ^ lg_cur_map_size s.

(** The median count: the middle element of the counts in ascending
    order. *)
Definition median (counts : list Z) : Z :=
  default 0 (merge_sort Z.le counts !! (length counts / 2)%nat).

(** Modelled from the spec: purge subtracts the median count from every
    entry, drops the entries that become non-positive, and adds the
    median to [offset]. *)
Definition purge (s : ItemsSketch) : ItemsSketch :=
  let m := median (snd <$> map_to_list (counter_map s)) in
  let keep (c : Z) : option Z :=
    let c' := int64 (c - m) in if 0 <? c' then Some c' else None in
  set_offset (int64 (offset s + m))
    (set_counter_map (omap keep (counter_map s)) s).

(** Modelled from the spec: the four cases of the update algorithm of
    section 4.1 for an item [k] and a weight. *)
Definition update_entry (s : ItemsSketch) (k : K) (weight : Z) : ItemsSketch :=
  match counter_map s !! k with
  | Some c => set_counter_map (<[k := int64 (c + weight)]> (counter_map s)) s
  | None =>
      let inserted := set_counter_map (<[k := weight]> (counter_map s)) in
      if 4 * get_num_active_items s <? 3 * capacity s then inserted s
      else if lg_cur_map_size s <? lg_max_map_size s
           then inserted (set_lg_cur_map_size (lg_cur_map_size s + 1) s)
           else purge (inserted s)
  end.

(** Modelled from the spec: [update_many(item, weight)]; a nil item is a
    successful no-op, a weight below 1 is an [InvalidArgument]. *)
Definition update_many (s : ItemsSketch) (item : option K) (weight : Z)
  : outcome ItemsSketch :=
  match item with
  | None => Ok s
  | Some k =>
      if weight <? 1 then Err InvalidArgument
      else
        let s := update_entry s k weight in
        Ok (set_stream_length (int64 (stream_length s + weight)) s)
  end.

Definition update (s : ItemsSketch) (item : option K) : outcome ItemsSketch :=
  update_many s item 1.

(** Modelled from the spec: [reset()] empties the table, zeroes [offset]
    and [stream_length], and shrinks the table to the minimum size. *)
Definition reset (s : ItemsSketch) : outcome ItemsSketch :=
  Ok {| lg_max_map_size := lg_max_map_size s;
        lg_cur_map_size := _LG_MIN_MAP_SIZE;
        counter_map := ∅; offset := 0; stream_length := 0;
        hasher := hasher s |}.

(** Feeding a list of weighted items, stopping at the first error. *)
Fixpoint update_all (s : ItemsSketch) (l : list (option K * Z))
  : outcome ItemsSketch :=
  match l with
  | [] => Ok s
  | (item, w) :: rest => s' ← update_many s item w; update_all s' rest
  end.

End ItemsSketch.

Arguments ItemsSketch K {_ _}.

(** The streams of the tests of [iterms_sketch_test.go].  The hashers
    stand in for the murmur3 hashers of the tests; the operations above
    never call them. *)
Definition string_hasher (item : string) : Z := Z.of_nat (String.length item).
Definition int_hasher (item : Z) : Z := item.

Definition run {K : Type} `{Countable K}
    (lg_max : Z) (h : K -> Z) (l : list (option K * Z))
  : outcome (ItemsSketch K) :=
  s ← new lg_max h; update_all s l.

Definition one_item : list (option string * Z) := [(Some "a", 1)].

Definition several_items : list (option string * Z) :=
  [(Some "a", 1); (Some "b", 1); (Some "c", 1); (Some "d", 1);
   (Some "b", 1); (Some "c", 1); (Some "b", 1)].

Definition estimation_stream : list (option Z * Z) :=
  [(Some 1, 10); (Some 2, 1); (Some 3, 1); (Some 4, 1); (Some 5, 1);
   (Some 6, 1); (Some 7, 15); (Some 8, 1); (Some 9, 1); (Some 10, 1);
   (Some 11, 1); (Some 12, 1)].

End Frequencies.

(** ** A preamble layout and a sketch constructor to run the code on *)

Module CpcReference.
Import GoInt Cpc.

(** Modelled from the spec: the preamble accessors are defined outside
    [cpc_compressed_state.go].  Section 6.2 describes the image: an 8-byte
    low preamble holding the preamble size, [lg_k], [fi_col], the flags
    (compressed bit, format ordinal) and the seed hash, then 32-bit
    little-endian words for [num_coupons] and [csv_length_ints], two-word
    doubles for [kxp] and [hip_est_accum], and the CSV stream.  The
    accessors below read that layout; they serve to run the code on
    concrete images. *)
Definition u8 (b : byte) : Z := Z.of_N (Byte.to_N b).

(** [mem[off]]; indexing outside the slice panics. *)
Definition read_u8 (mem : list byte) (off : Z) : outcome Z :=
  if off <? 0 then Panic "index out of range"
  else match mem !! Z.to_nat off with
       | Some b => Ok (u8 b)
       | None => Panic "index out of range"
       end.

Fixpoint le_value (bs : list byte) : Z :=
  match bs with
  | [] => 0
  | b :: rest => u8 b + 256 * le_value rest
  end.

(** The little-endian value of the [n] bytes from [off] on, as
    [binary.LittleEndian] reads them; a short slice panics. *)
Definition read_le (n : nat) (mem : list byte) (off : Z) : outcome Z :=
  if (off <? 0) || (len mem <? off + Z.of_nat n)
  then Panic "slice bounds out of range"
  else Ok (le_value (take n (drop (Z.to_nat off) mem))).

Fixpoint read_words (n : nat) (mem : list byte) (off : Z) : outcome (list Z) :=
  match n with
  | O => Ok []
  | S n' =>
      w ← read_le 4 mem off;
      ws ← read_words n' mem (off + 4);
      Ok (w :: ws)
  end.

(** Byte offsets of the low preamble, and flag masks. *)
Definition loFieldPreInts : Z := 0.
Definition loFieldSerVer : Z := 1.
Definition loFieldFamily : Z := 2.
Definition loFieldLgK : Z := 3.
Definition loFieldFiCol : Z := 4.
Definition loFieldFlags : Z := 5.
Definition loFieldSeedHash : Z := 6.
Definition compressedFlagMask : Z := 2.
Definition serVer : Z := 1.
Definition familyCpc : Z := 16.

(** Byte offsets of the high preamble fields the two SPARSE_HYBRID arms
    read, by format ordinal (0 where the format has no such field). *)
Definition hiFieldNumCoupons (format : Z) : Z :=
  if (2 <=? format) && (format <=? 7) then 8 else 0.
Definition hiFieldSvLengthInts (format : Z) : Z :=
  if (format =? 2) || (format =? 3) then 12
  else if (format =? 6) || (format =? 7) then 16 else 0.
Definition hiFieldKxp (format : Z) : Z :=
  if (format =? 3) || (format =? 5) then 16
  else if format =? 7 then 24 else 0.
Definition hiFieldHipAccum (format : Z) : Z :=
  if (format =? 3) || (format =? 5) then 24
  else if format =? 7 then 32 else 0.
Definition hiFieldSvStream (format : Z) : Z :=
  if format =? 2 then 16 else if format =? 3 then 32
  else if format =? 6 then 24 else if format =? 7 then 40 else 0.

Definition ref_getFormatOrdinal (mem : list byte) : outcome Z :=
  flags ← read_u8 mem loFieldFlags;
  Ok (Z.land (Z.shiftr flags 2) 7).

Definition ref_isCompressed (mem : list byte) : outcome bool :=
  flags ← read_u8 mem loFieldFlags;
  Ok (0 <? Z.land flags compressedFlagMask).

Definition ref_getLgK (mem : list byte) : outcome Z :=
  read_u8 mem loFieldLgK.

Definition ref_getSeedHash (mem : list byte) : outcome Z :=
  h ← read_le 2 mem loFieldSeedHash;
  Ok (int16 h).

Definition hiField (offset : Z -> Z) (mem : list byte) : outcome Z :=
  format ← ref_getFormatOrdinal mem;
  if offset format =? 0 then Panic "undefined preamble field"
  else Ok (offset format).

Definition ref_getNumCoupons (mem : list byte) : outcome Z :=
  off ← hiField hiFieldNumCoupons mem;
  read_le 4 mem off.

Definition ref_getSvLengthInts (mem : list byte) : outcome Z :=
  off ← hiField hiFieldSvLengthInts mem;
  read_le 4 mem off.

Definition ref_getKxP (mem : list byte) : outcome float64 :=
  off ← hiField hiFieldKxp mem;
  bits ← read_le 8 mem off;
  Ok (float64_of_bits bits).

Definition ref_getHipAccum (mem : list byte) : outcome float64 :=
  off ← hiField hiFieldHipAccum mem;
  bits ← read_le 8 mem off;
  Ok (float64_of_bits bits).

Definition ref_getSvStream (mem : list byte) : outcome (list Z) :=
  off ← hiField hiFieldSvStream mem;
  n ← ref_getSvLengthInts mem;
  read_words (Z.to_nat n) mem off.

Definition ref_checkCapacity (memCap expectedCap : Z) : outcome unit :=
  if memCap <? expectedCap then Err "insufficient image bytes" else Ok tt.

Definition ref_checkLoPreamble (mem : list byte) : outcome unit :=
  if len mem <? 8 then Err "insufficient image bytes" else
  sv ← read_u8 mem loFieldSerVer;
  if negb (sv =? serVer) then Err "bad serial version" else
  format ← ref_getFormatOrdinal mem;
  preIntsDef ← getDefinedPreInts format;
  preInts ← read_u8 mem loFieldPreInts;
  if negb (preInts =? preIntsDef) then Err "bad preamble ints" else
  fam ← read_u8 mem loFieldFamily;
  if negb (fam =? familyCpc) then Err "bad family" else
  lgK ← ref_getLgK mem;
  if negb ((4 <=? lgK) && (lgK <=? 26)) then Err "bad lgK" else
  fc ← read_u8 mem loFieldFiCol;
  if 63 <? fc then Err "bad fiCol" else Ok tt.

(** Modelled from the spec: [NewCpcSketch] is defined outside
    [cpc_compressed_state.go]; it returns an empty sketch for [lgK] and
    [seed], or an error for an [lgK] outside 4..26. *)
Definition ref_NewCpcSketch (lgK seed : Z) : outcome CpcSketch :=
  if negb ((4 <=? lgK) && (lgK <=? 26)) then Err "lgK out of range" else
  k ← shl_int 1 lgK;
  Ok {| lgK := lgK; seed := seed; numCoupons := 0; windowOffset := 0;
        fiCol := 0; mergeFlag := false; kxp := float64_of_int k;
        hipEstAccum := S754_zero false;
        slidingWindow := None; pairTable := None |}.

(** Modelled from the spec: the body of [determineCorrectOffset] is not
    given (section 9); this is the offset formula (8C - 19K) / 8K of the
    CPC reference, used only to run [uncompress] on examples. *)
Definition ref_determineCorrectOffset (lgK numCoupons : Z) : outcome Z :=
  let c := int64 numCoupons in
  k ← shl_int 1 lgK;
  let tmp := int64 (int64 (c * 8) - int64 (19 * k)) in
  if tmp <? 0 then Ok 0
  else Ok (int (Z.shiftr tmp (lgK + 3))).

#[global] Instance ref_ops : SketchOps := {|
  NewCpcSketch := ref_NewCpcSketch;
  determineCorrectOffset := ref_determineCorrectOffset
|}.

(** Sample images: an EMPTY_MERGED and an EMPTY_HIP image, a
    SPARSE_HYBRID_MERGED and a SPARSE_HYBRID_HIP image of three coupons
    in two stream words, and a PINNED_SLIDING_MERGED_NOSV image. *)
Definition empty_merged_image : list byte :=
  [x02; x01; x10; x0a; x00; x02; x34; x12]%byte.

Definition empty_hip_image : list byte :=
  [x02; x01; x10; x0a; x00; x06; x34; x12]%byte.

Definition sparse_hybrid_merged_image : list byte :=
  [x04; x01; x10; x0a; x00; x0a; x34; x12;
   x03; x00; x00; x00;  x02; x00; x00; x00;
   x11; x22; x33; x44;  x55; x66; x77; x08]%byte.

Definition sparse_hybrid_hip_image : list byte :=
  [x08; x01; x10; x0a; x00; x0e; x34; x12;
   x03; x00; x00; x00;  x02; x00; x00; x00;
   x00; x00; x00; x00; x00; xf4; x8f; x40;
   x00; x00; x00; x00; x00; x00; x08; x40;
   x11; x22; x33; x44;  x55; x66; x77; x08]%byte.

Definition pinned_sliding_image : list byte :=
  [x04; x01; x10; x0a; x00; x12; x34; x12;
   xe8; x03; x00; x00;  x01; x00; x00; x00;
   x11; x22; x33; x44]%byte.

(** A state of [lgK = 10] with the given stream sizes and merge flag. *)
Definition state_of (numCsv csvLengthInts cwLengthInts : Z) (merge : bool)
  : CpcCompressedState :=
  {| CsvIsValid := false; WindowIsValid := false;
     LgK := 10; SeedHash := 4660; FiCol := 0;
     MergeFlag := merge; NumCoupons := uint64 numCsv;
     Kxp := float64_of_int 1024; HipEstAccum := S754_zero false;
     NumCsv := numCsv; CsvStream := []; CsvLengthInts := csvLengthInts;
     CwStream := []; CwLengthInts := cwLengthInts |}.

Lemma u8_range (b : byte) : 0 <= u8 b < 256.
Proof.
  unfold u8. pose proof (Byte.to_N_bounded b) as Hb. lia.
Qed.

Lemma le_value_bound (bs : list byte) :
  0 <= le_value bs < 256 ^ Z.of_nat (length bs).
Proof.
  induction bs as [|b bs IH]; [cbn; lia|].
  cbn [le_value length]. rewrite Nat2Z.inj_succ, Z.pow_succ_r by lia.
  pose proof (u8_range b). lia.
Qed.

Lemma read_le_bound (n : nat) (mem : list byte) (off v : Z) :
  read_le n mem off = Ok v -> 0 <= v < 256 ^ Z.of_nat n.
Proof.
  unfold read_le. case_match; [discriminate|]. intros [= <-].
  pose proof (le_value_bound (take n (drop (Z.to_nat off) mem))) as Hb.
  assert (256 ^ Z.of_nat (length (take n (drop (Z.to_nat off) mem)))
          <= 256 ^ Z.of_nat n).
  { apply Z.pow_le_mono_r; [lia|]. rewrite length_take. lia. }
  lia.
Qed.

Lemma ref_getNumCoupons_word (bytes : list byte) (n : Z) :
  ref_getNumCoupons bytes = Ok n -> 0 <= n < 2 ^ 32.
Proof.
  unfold ref_getNumCoupons. destruct (hiField _ _) as [off| |]; cbn;
    [|discriminate..].
  intros Hr. apply read_le_bound in Hr. exact Hr.
Qed.

#[global] Instance ref_pre : PreambleUtil := {|
  checkLoPreamble := ref_checkLoPreamble;
  isCompressed := ref_isCompressed;
  getLgK := ref_getLgK;
  getSeedHash := ref_getSeedHash;
  getFormatOrdinal := ref_getFormatOrdinal;
  getNumCoupons := ref_getNumCoupons;
  getSvLengthInts := ref_getSvLengthInts;
  getKxP := ref_getKxP;
  getHipAccum := ref_getHipAccum;
  getSvStream := ref_getSvStream;
  checkCapacity := ref_checkCapacity;
  getNumCoupons_word := ref_getNumCoupons_word
|}.

End CpcReference.


(** ** The hashers of the frequent-items tests *)

Module TestHashers.
Import GoInt.

(** [byte(v)]: the low eight bits of [v]. *)
Definition byte_of (v : Z) : byte :=
  default x00%byte (Byte.of_N (Z.to_N (v mod 256))).

(** The bytes [binary.LittleEndian] stores for [v], lowest first:
    [b[i] = byte(v >> (8 * i))]. *)
Fixpoint le_bytes (n : nat) (v : Z) : list byte :=
  match n with
  | O => []
  | S n' => byte_of v :: le_bytes n' (Z.shiftr v 8)
  end.

(** [binary.LittleEndian.PutUint64(b, v)] overwrites the first eight
    bytes of [b]; a shorter slice panics. *)
Definition PutUint64 (b : list byte) (v : Z) : outcome (list byte) :=
  if Cpc.len b <? 8 then Panic "index out of range"
  else Ok (le_bytes 8 v ++ drop 8 b)%list.

Record IntHasher : Type := { scratch : list byte (* [8]byte *) }.

Section Murmur.
(** [murmur3.SeedSum64] and [internal.DEFAULT_UPDATE_SEED] come from
    outside the repository's sources. *)
Variable SeedSum64 : Z -> list byte -> Z.
Variable DEFAULT_UPDATE_SEED : Z.

Definition StringHasher_Hash (item : string) : outcome Z :=
  let datum := list_byte_of_string item in
  Ok (SeedSum64 DEFAULT_UPDATE_SEED datum).

(** The receiver is a value: [PutUint64] writes into the copy's
    [scratch], which is then hashed. *)
Definition IntHasher_Hash (h : IntHasher) (item : Z) : outcome Z :=
  s ← PutUint64 (scratch h) (uint64 item);
  Ok (SeedSum64 DEFAULT_UPDATE_SEED s).

(** [*item] on a nil pointer panics. *)
Definition StringPointerHasher_Hash (item : option string) : outcome Z :=
  match item with
  | None => Panic "nil pointer dereference"
  | Some str =>
      let datum := list_byte_of_string str in
      Ok (SeedSum64 DEFAULT_UPDATE_SEED datum)
  end.

End Murmur.

End TestHashers.

(** * Properties *)

(** ** Machine arithmetic *)

Section GoIntFacts.
Import GoInt.

Lemma wrap_signed_id (w x : Z) :
  0 < w -> - 2 ^ (w - 1) <= x < 2 ^ (w - 1) -> wrap_signed w x = x.
Proof.
  intros Hw Hx. unfold wrap_signed.
  assert (2 ^ w = 2 * 2 ^ (w - 1)) as Hp.
  { rewrite <- Z.pow_succ_r by lia. f_equal. lia. }
  rewrite Z.mod_small by lia. lia.
Qed.

Lemma int_id (x : Z) : in_int x -> int x = x.
Proof. intros Hx. apply wrap_signed_id; [lia|exact Hx]. Qed.

Lemma int64_id (x : Z) : in_int x -> int64 x = x.
Proof. exact (int_id x). Qed.

(** A wrapped value differs from the exact one by a multiple of 2^64. *)
Lemma int_spec (x : Z) : exists k, int x = x + 2 ^ 64 * k.
Proof.
  exists (- ((x + 2 ^ 63) / 2 ^ 64)). unfold int, wrap_signed.
  change (2 ^ (64 - 1)) with (2 ^ 63).
  pose proof (Z.div_mod (x + 2 ^ 63) (2 ^ 64) ltac:(lia)). lia.
Qed.

Lemma int_congr (x y k : Z) : x = y + 2 ^ 64 * k -> int x = int y.
Proof.
  intros ->. unfold int, wrap_signed. f_equal.
  replace (y + 2 ^ 64 * k + 2 ^ (64 - 1)) with (y + 2 ^ (64 - 1) + k * 2 ^ 64)
    by lia.
  apply Z_mod_plus_full.
Qed.

Lemma int_range (x : Z) : in_int (int x).
Proof.
  unfold in_int, int, wrap_signed. change (2 ^ (64 - 1)) with (2 ^ 63).
  pose proof (Z.mod_pos_bound (x + 2 ^ 63) (2 ^ 64) ltac:(lia)). lia.
Qed.

End GoIntFacts.

(** ** The format of a state and its preamble size *)

Section FormatFacts.
Import GoInt Cpc.

(** The ordinal [getFormat] computes, bit by bit. *)
Lemma getFormat_bits (c : CpcCompressedState) :
  getFormat c =
    (if 0 <? CwLengthInts c then 4 else 0)
    + (if 0 <? NumCsv c then 2 else 0)
    + (if MergeFlag c then 1 else 0).
Proof.
  unfold getFormat.
  destruct (0 <? CwLengthInts c), (0 <? NumCsv c), (MergeFlag c); reflexivity.
Qed.

Lemma getFormat_range (c : CpcCompressedState) : 0 <= getFormat c <= 7.
Proof.
  rewrite getFormat_bits.
  destruct (0 <? CwLengthInts c), (0 <? NumCsv c), (MergeFlag c); lia.
Qed.

(** Bit 0 of the computed ordinal is the merge flag itself. *)
Lemma getFormat_bit0 (c : CpcCompressedState) :
  Z.land (getFormat c) 1 = if MergeFlag c then 1 else 0.
Proof.
  rewrite getFormat_bits.
  destruct (0 <? CwLengthInts c), (0 <? NumCsv c), (MergeFlag c); reflexivity.
Qed.

(** Inside the table, [getDefinedPreInts] is the table of the
    specification. *)
Lemma getDefinedPreInts_table (format : CpcFormat) :
  0 <= format <= 7 -> getDefinedPreInts format = Ok (pre_ints format).
Proof.
  intros Hf.
  assert (format = 0 \/ format = 1 \/ format = 2 \/ format = 3 \/
          format = 4 \/ format = 5 \/ format = 6 \/ format = 7) as Hc by lia.
  destruct Hc as [->|[->|[->|[->|[->|[->|[->| ->]]]]]]]; reflexivity.
Qed.

(** Outside the table, indexing panics. *)
Lemma getDefinedPreInts_outside (format : CpcFormat) :
  ~ 0 <= format <= 7 -> getDefinedPreInts format = Panic "index out of range".
Proof.
  intros Hf. unfold getDefinedPreInts.
  destruct (format <? 0) eqn:Hneg; [reflexivity|].
  apply Z.ltb_ge in Hneg.
  rewrite (proj2 (lookup_ge_None preIntsDefs (Z.to_nat format))); [reflexivity|].
  cbn. lia.
Qed.

Lemma getRequiredSerializedBytes_int (c : CpcCompressedState) :
  getRequiredSerializedBytes c =
    Ok (int (4 * (pre_ints (getFormat c) + CsvLengthInts c + CwLengthInts c))).
Proof.
  unfold getRequiredSerializedBytes.
  rewrite (getDefinedPreInts_table _ (getFormat_range c)). cbn.
  f_equal.
  destruct (int_spec (pre_ints (getFormat c) + CsvLengthInts c)) as [k1 E1].
  destruct (int_spec (int (pre_ints (getFormat c) + CsvLengthInts c)
                      + CwLengthInts c)) as [k2 E2].
  apply (int_congr _ _ (4 * (k1 + k2))). lia.
Qed.

End FormatFacts.

Section FormatClaims.
Import GoInt Cpc.

(** C5: [getRequiredSerializedBytes] computes
    4 * (pre_ints(format) + csv_length_ints + cw_length_ints) in Go's
    [int] arithmetic, with [pre_ints] the table 2, 2, 4, 8, 4, 8, 6, 10
    of the specification, on the format [getFormat] returns.  On a
    SPARSE_HYBRID_HIP state (no window words, surprising values,
    [MergeFlag = false]) with four CSV words [getFormat] returns
    ordinal 2, whose preamble has 4 words, so the result is 32 bytes and
    not the 48 bytes of the 8-word SPARSE_HYBRID_HIP preamble. *)
Theorem getRequiredSerializedBytes_sparse_hybrid_hip (c : CpcCompressedState) :
  pre_ints <$> [0; 1; 2; 3; 4; 5; 6; 7] = [2; 2; 4; 8; 4; 8; 6; 10]
  /\ getRequiredSerializedBytes c
     = Ok (int (4 * (pre_ints (getFormat c)
                     + CsvLengthInts c + CwLengthInts c)))
  /\ (CwLengthInts c = 0 -> 0 < NumCsv c -> MergeFlag c = false ->
      CsvLengthInts c = 4 ->
      getFormat c = CpcFormatSparseHybridMerged
      /\ getRequiredSerializedBytes c = Ok 32
      /\ getRequiredSerializedBytes c
         <> Ok (4 * (pre_ints CpcFormatSparceHybridHip + 4 + 0))).
Proof.
  split; [reflexivity|].
  split; [apply getRequiredSerializedBytes_int|].
  intros Hcw Hcsv Hm Hlen.
  assert (getFormat c = CpcFormatSparseHybridMerged) as Hf.
  { rewrite getFormat_bits, Hcw, Hm. apply Z.ltb_lt in Hcsv.
    rewrite Hcsv. reflexivity. }
  assert (getRequiredSerializedBytes c = Ok 32) as Hr.
  { rewrite getRequiredSerializedBytes_int, Hf, Hlen, Hcw. reflexivity. }
  split; [exact Hf|]. split; [exact Hr|].
  rewrite Hr. discriminate.
Qed.

(** C10: [getFormat] always returns an ordinal in 0..7, so the index
    into the eight-entry table of [getDefinedPreInts] is in bounds and
    [getRequiredSerializedBytes] returns a value, never panics. *)
Theorem getFormat_indexes_table (c : CpcCompressedState) :
  0 <= getFormat c <= 7
  /\ (Z.to_nat (getFormat c) < length preIntsDefs)%nat
  /\ (exists n, getDefinedPreInts (getFormat c) = Ok n)
  /\ (exists n, getRequiredSerializedBytes c = Ok n).
Proof.
  pose proof (getFormat_range c) as Hr.
  split; [exact Hr|]. split; [cbn; lia|]. split.
  - eexists. apply getDefinedPreInts_table, Hr.
  - eexists. apply getRequiredSerializedBytes_int.
Qed.

(** C2: what [getFormat] returns on the two states of the scenario.  With
    no window words, no surprising values and [MergeFlag = true] it
    returns ordinal 1, EMPTY_HIP, where EMPTY_MERGED (0) is expected;
    with surprising values and [MergeFlag = false] it returns ordinal 2,
    SPARSE_HYBRID_MERGED, where SPARSE_HYBRID_HIP (3) is expected. *)
Theorem getFormat_scenario (c : CpcCompressedState) :
  (CwLengthInts c = 0 -> NumCsv c = 0 -> MergeFlag c = true ->
   getFormat c = CpcFormatEmptyHip /\ getFormat c <> CpcformatEmptyMerged)
  /\ (CwLengthInts c = 0 -> 0 < NumCsv c -> MergeFlag c = false ->
      getFormat c = CpcFormatSparseHybridMerged
      /\ getFormat c <> CpcFormatSparceHybridHip).
Proof.
  rewrite getFormat_bits. split.
  - intros -> -> ->. cbn. split; [reflexivity|discriminate].
  - intros -> Hcsv ->. apply Z.ltb_lt in Hcsv. rewrite Hcsv. cbn.
    split; [reflexivity|discriminate].
Qed.

Lemma getRequiredSerializedBytes_sparse_hybrid_hip_witness :
  getFormat (CpcReference.state_of 3 4 0 false) = CpcFormatSparseHybridMerged
  /\ getRequiredSerializedBytes (CpcReference.state_of 3 4 0 false) = Ok 32
  /\ getRequiredSerializedBytes (CpcReference.state_of 3 4 0 false)
     <> Ok (4 * (pre_ints CpcFormatSparceHybridHip + 4 + 0)).
Proof.
  apply (proj2 (proj2 (getRequiredSerializedBytes_sparse_hybrid_hip
                         (CpcReference.state_of 3 4 0 false))));
    first [reflexivity | cbn; lia].
Defined.

Lemma getFormat_scenario_witness :
  getFormat (CpcReference.state_of 0 0 0 true) = CpcFormatEmptyHip
  /\ getFormat (CpcReference.state_of 5 4 0 false) = CpcFormatSparseHybridMerged.
Proof.
  split.
  - apply (proj1 (getFormat_scenario (CpcReference.state_of 0 0 0 true)));
      reflexivity.
  - apply (proj2 (getFormat_scenario (CpcReference.state_of 5 4 0 false)));
      reflexivity.
Defined.

End FormatClaims.

(** ** Importing an image *)

Section ImportFacts.
Import GoInt Cpc.
Context {pre : PreambleUtil}.

(** Case analysis on the outcome of the next call of a sequence. *)
Ltac next_call H :=
  match type of H with
  | context [mbind _ ?m] =>
      let E := fresh "Hcall" in
      destruct m eqn:E; cbn in H; try discriminate H
  end.

Lemma NewCpcCompressedState_Ok (lgK seedHash : Z) (st : CpcCompressedState) :
  NewCpcCompressedState lgK seedHash = Ok st ->
  0 <= lgK /\ MergeFlag st = false /\ NumCoupons st = 0 /\ NumCsv st = 0
  /\ CsvLengthInts st = 0 /\ CwLengthInts st = 0
  /\ LgK st = lgK /\ SeedHash st = seedHash.
Proof.
  unfold NewCpcCompressedState, shl_int.
  destruct (lgK <? 0) eqn:Hneg; cbn; [discriminate|].
  intros [= <-]. cbn. apply Z.ltb_ge in Hneg. tauto.
Qed.

(** What a successful import has read and stored. *)
Lemma importFromMemory_Ok (bytes : list byte) (st : CpcCompressedState) :
  importFromMemory bytes = Ok st ->
  exists ord,
    getFormatOrdinal bytes = Ok ord
    /\ MergeFlag st = (Z.land ord 1 =? 0)
    /\ CsvIsValid st = (0 <? Z.land ord 2)
    /\ WindowIsValid st = (0 <? Z.land ord 4)
    /\ CwLengthInts st = 0
    /\ ((ord = 0 \/ ord = 1) /\ NumCoupons st = 0 /\ NumCsv st = 0
        \/ (ord = 2 \/ ord = 3)
           /\ getNumCoupons bytes = Ok (NumCoupons st)
           /\ NumCsv st = int (NumCoupons st)).
Proof.
  unfold importFromMemory. intros H.
  next_call H. next_call H.
  destruct a0; cbn in H; [|discriminate].
  next_call H. next_call H. next_call H.
  apply NewCpcCompressedState_Ok in Hcall3.
  destruct a2 as [? ? ? ? ? ? ? ? ? ? ? ? ? ?]; cbn in Hcall3.
  destruct Hcall3 as (_ & ? & ? & ? & ? & ? & _); subst.
  next_call H. rename a2 into ord. exists ord. split; [reflexivity|].
  destruct ((ord =? CpcformatEmptyMerged) || (ord =? CpcFormatEmptyHip))
    eqn:Hempty.
  { next_call H. injection H as <-. cbn.
    repeat split. left. apply orb_true_iff in Hempty.
    unfold CpcformatEmptyMerged, CpcFormatEmptyHip in Hempty. lia. }
  destruct (ord =? CpcFormatSparseHybridMerged) eqn:Hmerged.
  { repeat next_call H. injection H as <-. cbn.
    repeat split. right. unfold CpcFormatSparseHybridMerged in Hmerged.
    split; [lia|]. split; reflexivity. }
  destruct (ord =? CpcFormatSparceHybridHip) eqn:Hhip; [|discriminate].
  repeat next_call H. injection H as <-. cbn.
  repeat split. right. unfold CpcFormatSparceHybridHip in Hhip.
  split; [lia|]. split; reflexivity.
Qed.

(** C1: the format [getFormat] computes on an imported state never has
    the stored ordinal.  Import complements bit 0 into [MergeFlag] and
    [getFormat] puts [MergeFlag] back into bit 0 as it is, so bit 0 of
    the recomputed ordinal is the complement of the stored bit 0, for
    every accepted image. *)
Theorem importFromMemory_format_differs
    (bytes : list byte) (st : CpcCompressedState) (ord : Z) :
  importFromMemory bytes = Ok st ->
  getFormatOrdinal bytes = Ok ord ->
  Z.land (getFormat st) 1 = 1 - Z.land ord 1 /\ getFormat st <> ord.
Proof.
  intros Himp Hord.
  destruct (importFromMemory_Ok _ _ Himp) as (ord' & Hord' & Hmerge & _).
  rewrite Hord in Hord'. injection Hord' as <-.
  pose proof (getFormat_bit0 st) as Hbit. rewrite Hmerge in Hbit.
  assert (Z.land ord 1 = 0 \/ Z.land ord 1 = 1) as Hlow.
  { assert (Z.land ord 1 = ord mod 2) as ->
      by exact (Z.land_ones ord 1 ltac:(lia)).
    pose proof (Z.mod_pos_bound ord 2 ltac:(lia)). lia. }
  assert (Z.land (getFormat st) 1 = 1 - Z.land ord 1) as Hflip.
  { destruct Hlow as [E|E]; rewrite E in Hbit |- *; exact Hbit. }
  split; [exact Hflip|]. intros Heq. rewrite Heq in Hflip. lia.
Qed.

(** C7: after a successful import of a SPARSE_HYBRID image (ordinal 2
    or 3) the state has [NumCsv == NumCoupons]. *)
Theorem importFromMemory_sparse_hybrid_NumCsv
    (bytes : list byte) (st : CpcCompressedState) (ord : Z) :
  importFromMemory bytes = Ok st ->
  getFormatOrdinal bytes = Ok ord ->
  ord = CpcFormatSparseHybridMerged \/ ord = CpcFormatSparceHybridHip ->
  NumCsv st = NumCoupons st.
Proof.
  intros Himp Hord Hsparse.
  destruct (importFromMemory_Ok _ _ Himp) as (ord' & Hord' & _ & _ & _ & _ & Hcase).
  rewrite Hord in Hord'. injection Hord' as <-.
  unfold CpcFormatSparseHybridMerged, CpcFormatSparceHybridHip in Hsparse.
  destruct Hcase as [(Hempty & _)|(_ & Hread & ->)]; [lia|].
  apply getNumCoupons_word in Hread.
  apply int_id. unfold in_int. lia.
Qed.

(** The required size reads four fields of a state only. *)
Lemma getRequiredSerializedBytes_ext (c1 c2 : CpcCompressedState) :
  MergeFlag c1 = MergeFlag c2 -> NumCsv c1 = NumCsv c2 ->
  CsvLengthInts c1 = CsvLengthInts c2 -> CwLengthInts c1 = CwLengthInts c2 ->
  getRequiredSerializedBytes c1 = getRequiredSerializedBytes c2.
Proof.
  intros Hm Hn Hl Hw. unfold getRequiredSerializedBytes, getFormat.
  rewrite Hm, Hn, Hl, Hw. reflexivity.
Qed.

(** Replaces the state at a capacity check by [sparse_state]. *)
Ltac to_sparse_state st0 ord n sv :=
  match goal with
  | |- context [getRequiredSerializedBytes ?c] =>
      rewrite (getRequiredSerializedBytes_ext c (sparse_state st0 ord n sv))
        by (destruct st0; reflexivity)
  end.

(** Runs [importFromMemory] along the calls whose outcome is a
    hypothesis. *)
Ltac run_calls :=
  repeat (match goal with
          | H : ?m = _ |- context [mbind _ ?m] => rewrite H
          end; cbn).

(** Every panic of [importFromMemory] but "not implemented" is the panic
    of a call it makes. *)
Lemma importFromMemory_Panic (bytes : list byte) (msg : string) :
  importFromMemory bytes = Panic msg ->
  (msg = "not implemented"
   /\ exists st0 ord, reaches_switch bytes st0 ord /\ ~ 0 <= ord <= 3)
  \/ callee_panics bytes msg.
Proof.
  intros H. unfold importFromMemory in H.
  destruct (checkLoPreamble bytes) as [[]|e|m] eqn:Hlo; cbn in H;
    [|discriminate H
     |injection H as <-; right; apply panics_checkLoPreamble; exact Hlo].
  destruct (isCompressed bytes) as [[|]|e|m] eqn:Hc; cbn in H;
    [|discriminate H|discriminate H
     |injection H as <-; right; eapply panics_isCompressed; eassumption].
  destruct (getLgK bytes) as [lgK|e|m] eqn:HlgK; cbn in H;
    [|discriminate H
     |injection H as <-; right; eapply panics_getLgK; eassumption].
  destruct (getSeedHash bytes) as [h|e|m] eqn:Hh; cbn in H;
    [|discriminate H
     |injection H as <-; right; eapply panics_getSeedHash; eassumption].
  destruct (NewCpcCompressedState lgK h) as [st0|e|m] eqn:Hnew; cbn in H;
    [|discriminate H
     |injection H as <-; right;
      eapply panics_NewCpcCompressedState; eassumption].
  destruct (getFormatOrdinal bytes) as [ord|e|m] eqn:Hord; cbn in H;
    [|discriminate H
     |injection H as <-; right; eapply panics_getFormatOrdinal; eassumption].
  assert (reaches_switch bytes st0 ord) as Hsw.
  { split; [exact Hlo|]. split; [exact Hc|]. exists lgK, h. auto. }
  assert (forall c, exists r, getRequiredSerializedBytes c = Ok r) as Hreq
    by (intros c; eexists; apply getRequiredSerializedBytes_int).
  unfold CpcformatEmptyMerged, CpcFormatEmptyHip,
    CpcFormatSparseHybridMerged, CpcFormatSparceHybridHip in H.
  destruct ((ord =? 0) || (ord =? 1)) eqn:Hempty.
  { assert (ord = 0 \/ ord = 1) as Hcase
      by (apply orb_true_iff in Hempty; lia).
    destruct (checkCapacity (len bytes) 8) as [[]|e|m] eqn:Hcap; cbn in H;
      [discriminate H|discriminate H|].
    injection H as <-. right.
    eapply panics_checkCapacity_empty; eassumption. }
  apply orb_false_iff in Hempty.
  destruct (ord =? 2) eqn:H2.
  { apply Z.eqb_eq in H2. subst ord.
    destruct (getNumCoupons bytes) as [n|e|m] eqn:Hn; cbn in H;
      [|discriminate H|].
    2:{ injection H as <-. right.
        eapply panics_getNumCoupons; first [eassumption | lia]. }
    destruct (getSvLengthInts bytes) as [sv|e|m] eqn:Hsv; cbn in H;
      [|discriminate H|].
    2:{ injection H as <-. right.
        eapply panics_getSvLengthInts; first [eassumption | lia]. }
    destruct (Hreq (sparse_state st0 2 n sv)) as [r Hr].
    assert (reaches_capacity_check bytes st0 2 n sv r) as Hrc.
    { split; [exact Hsw|]. split; [left; reflexivity|]. auto. }
    revert H. to_sparse_state st0 2 n sv. rewrite Hr. cbn. intros H.
    destruct (checkCapacity (len bytes) r) as [[]|e|m] eqn:Hcap; cbn in H;
      [|discriminate H|].
    2:{ injection H as <-. right.
        eapply panics_checkCapacity_sparse; eassumption. }
    destruct (getSvStream bytes) as [stream|e|m] eqn:Hstream; cbn in H;
      [discriminate H|discriminate H|].
    injection H as <-. right. eapply panics_getSvStream; eassumption. }
  destruct (ord =? 3) eqn:H3.
  { apply Z.eqb_eq in H3. subst ord.
    destruct (getNumCoupons bytes) as [n|e|m] eqn:Hn; cbn in H;
      [|discriminate H|].
    2:{ injection H as <-. right.
        eapply panics_getNumCoupons; first [eassumption | lia]. }
    destruct (getSvLengthInts bytes) as [sv|e|m] eqn:Hsv; cbn in H;
      [|discriminate H|].
    2:{ injection H as <-. right.
        eapply panics_getSvLengthInts; first [eassumption | lia]. }
    destruct (getKxP bytes) as [x|e|m] eqn:Hx; cbn in H;
      [|discriminate H|].
    2:{ injection H as <-. right. eapply panics_getKxP; eassumption. }
    destruct (getHipAccum bytes) as [hip|e|m] eqn:Hhip; cbn in H;
      [|discriminate H|].
    2:{ injection H as <-. right. eapply panics_getHipAccum; eassumption. }
    destruct (Hreq (sparse_state st0 3 n sv)) as [r Hr].
    assert (reaches_capacity_check bytes st0 3 n sv r) as Hrc.
    { split; [exact Hsw|]. split; [right; eauto|]. auto. }
    revert H. to_sparse_state st0 3 n sv. rewrite Hr. cbn. intros H.
    destruct (checkCapacity (len bytes) r) as [[]|e|m] eqn:Hcap; cbn in H;
      [|discriminate H|].
    2:{ injection H as <-. right.
        eapply panics_checkCapacity_sparse; eassumption. }
    destruct (getSvStream bytes) as [stream|e|m] eqn:Hstream; cbn in H;
      [discriminate H|discriminate H|].
    injection H as <-. right. eapply panics_getSvStream; eassumption. }
  injection H as <-. left. split; [reflexivity|]. exists st0, ord.
  split; [exact Hsw|]. lia.
Qed.

(** Conversely, a panicking call makes [importFromMemory] panic with the
    same message: [callee_panics] holds of the calls made, and of no
    other. *)
Lemma callee_panics_importFromMemory (bytes : list byte) (msg : string) :
  callee_panics bytes msg -> importFromMemory bytes = Panic msg.
Proof.
  intros Hp.
  unfold importFromMemory, CpcformatEmptyMerged, CpcFormatEmptyHip,
    CpcFormatSparseHybridMerged, CpcFormatSparceHybridHip.
  destruct Hp as
    [ H | Hlo H | Hlo Hc H | lgK Hlo Hc HlgK H | lgK h Hlo Hc HlgK Hh H
    | lgK h st0 Hlo Hc HlgK Hh Hnew H
    | st0 ord Hsw Hcase H | st0 ord Hsw Hcase H | st0 ord n Hsw Hcase Hn H
    | st0 n sv Hsw Hn Hsv H | st0 n sv x Hsw Hn Hsv Hx H
    | st0 ord n sv r Hrc H | st0 ord n sv r Hrc Hcap H ];
    try (run_calls; reflexivity).
  - destruct Hsw as (Hlo & Hc & lgK & h & HlgK & Hh & Hnew & Hord).
    destruct Hcase as [-> | ->]; run_calls; reflexivity.
  - destruct Hsw as (Hlo & Hc & lgK & h & HlgK & Hh & Hnew & Hord).
    destruct Hcase as [-> | ->]; run_calls; reflexivity.
  - destruct Hsw as (Hlo & Hc & lgK & h & HlgK & Hh & Hnew & Hord).
    destruct Hcase as [-> | ->]; run_calls; reflexivity.
  - destruct Hsw as (Hlo & Hc & lgK & h & HlgK & Hh & Hnew & Hord).
    run_calls. reflexivity.
  - destruct Hsw as (Hlo & Hc & lgK & h & HlgK & Hh & Hnew & Hord).
    run_calls. reflexivity.
  - destruct Hrc as ((Hlo & Hc & lgK & h & HlgK & Hh & Hnew & Hord)
                     & Hcase & Hn & Hsv & Hr).
    destruct Hcase as [-> | (-> & (x & Hx) & (hip & Hhip))];
      run_calls; [to_sparse_state st0 2 n sv | to_sparse_state st0 3 n sv];
      rewrite Hr; cbn; run_calls; reflexivity.
  - destruct Hrc as ((Hlo & Hc & lgK & h & HlgK & Hh & Hnew & Hord)
                     & Hcase & Hn & Hsv & Hr).
    destruct Hcase as [-> | (-> & (x & Hx) & (hip & Hhip))];
      run_calls; [to_sparse_state st0 2 n sv | to_sparse_state st0 3 n sv];
      rewrite Hr; cbn; run_calls; reflexivity.
Qed.

(** C3, as the code has it: an image that passes the low-preamble and
    compressed checks with a format ordinal outside 0..3 (the four
    PINNED_SLIDING formats) makes [importFromMemory] panic with
    "not implemented"; [importFromMemory] panics exactly then or when a
    call it makes panics; so on an image with an ordinal in 0..3 on which
    none of the calls it makes panics, it returns a state or an error. *)
Theorem importFromMemory_panics_or_returns :
  (forall bytes lgK seedHash ord,
     checkLoPreamble bytes = Ok tt -> isCompressed bytes = Ok true ->
     getLgK bytes = Ok lgK -> 0 <= lgK ->
     getSeedHash bytes = Ok seedHash ->
     getFormatOrdinal bytes = Ok ord -> ~ 0 <= ord <= 3 ->
     importFromMemory bytes = Panic "not implemented")
  /\ (forall bytes msg,
        importFromMemory bytes = Panic msg <->
        (msg = "not implemented"
         /\ exists st0 ord, reaches_switch bytes st0 ord /\ ~ 0 <= ord <= 3)
        \/ callee_panics bytes msg)
  /\ (forall bytes,
        (forall ord, getFormatOrdinal bytes = Ok ord -> 0 <= ord <= 3) ->
        (forall msg, ~ callee_panics bytes msg) ->
        returns (importFromMemory bytes)).
Proof.
  assert (forall bytes lgK seedHash ord,
            checkLoPreamble bytes = Ok tt -> isCompressed bytes = Ok true ->
            getLgK bytes = Ok lgK -> 0 <= lgK ->
            getSeedHash bytes = Ok seedHash ->
            getFormatOrdinal bytes = Ok ord -> ~ 0 <= ord <= 3 ->
            importFromMemory bytes = Panic "not implemented") as Hstub.
  { intros bytes lgK seedHash ord Hlo Hcomp HlgK Hpos Hseed Hord Hout.
    unfold importFromMemory.
    rewrite Hlo, Hcomp, HlgK, Hseed. cbn.
    unfold NewCpcCompressedState, shl_int.
    rewrite (proj2 (Z.ltb_ge lgK 0) Hpos). cbn. rewrite Hord. cbn.
    assert (ord <> 0 /\ ord <> 1 /\ ord <> 2 /\ ord <> 3) as (H0 & H1 & H2 & H3)
      by lia.
    unfold CpcformatEmptyMerged, CpcFormatEmptyHip,
      CpcFormatSparseHybridMerged, CpcFormatSparceHybridHip.
    rewrite (proj2 (Z.eqb_neq ord 0) H0), (proj2 (Z.eqb_neq ord 1) H1),
      (proj2 (Z.eqb_neq ord 2) H2), (proj2 (Z.eqb_neq ord 3) H3).
    reflexivity. }
  split; [exact Hstub|]. split.
  - intros bytes msg. split; [apply importFromMemory_Panic|].
    intros [(-> & st0 & ord & Hsw & Hout)|Hp];
      [|apply callee_panics_importFromMemory, Hp].
    destruct Hsw as (Hlo & Hc & lgK & h & HlgK & Hh & Hnew & Hord).
    apply (Hstub bytes lgK h ord); try assumption.
    apply NewCpcCompressedState_Ok in Hnew. tauto.
  - intros bytes Hord Hcallee. unfold returns.
    destruct (importFromMemory bytes) as [st|e|msg] eqn:Himp; [eauto..|].
    exfalso.
    destruct (importFromMemory_Panic _ _ Himp)
      as [(_ & st0 & ord & Hsw & Hout)|Hp].
    + destruct Hsw as (_ & _ & lgK & h & _ & _ & _ & Ho).
      apply Hout, Hord, Ho.
    + exact (Hcallee _ Hp).
Qed.

End ImportFacts.

Section ImportExamples.
Import GoInt Cpc CpcReference.

(** The EMPTY_MERGED sample image (stored ordinal 0) is accepted, import
    sets [MergeFlag = true], and [getFormat] on the returned state gives
    ordinal 1, EMPTY_HIP. *)
Example importFromMemory_empty_merged_format :
  exists st,
    importFromMemory empty_merged_image = Ok st
    /\ getFormatOrdinal empty_merged_image = Ok CpcformatEmptyMerged
    /\ MergeFlag st = true
    /\ getFormat st = CpcFormatEmptyHip
    /\ getFormat st <> CpcformatEmptyMerged.
Proof.
  eexists. split; [vm_compute; reflexivity|].
  repeat apply conj; vm_compute; congruence.
Qed.

Lemma importFromMemory_format_differs_witness :
  exists st,
    importFromMemory empty_merged_image = Ok st
    /\ Z.land (getFormat st) 1 = 1 - Z.land CpcformatEmptyMerged 1
    /\ getFormat st <> CpcformatEmptyMerged.
Proof.
  eexists. split; [vm_compute; reflexivity|].
  apply (@importFromMemory_format_differs ref_pre empty_merged_image);
    vm_compute; reflexivity.
Defined.

(** The same on the SPARSE_HYBRID_HIP image: the state is reformatted as
    SPARSE_HYBRID_MERGED, so the capacity check asks for a 4-word
    preamble where the image has 8. *)
Example importFromMemory_sparse_hybrid_hip_format :
  exists st,
    importFromMemory sparse_hybrid_hip_image = Ok st
    /\ getFormatOrdinal sparse_hybrid_hip_image = Ok CpcFormatSparceHybridHip
    /\ getFormat st = CpcFormatSparseHybridMerged
    /\ getRequiredSerializedBytes st = Ok 24
    /\ len sparse_hybrid_hip_image = 40.
Proof.
  eexists. split; [vm_compute; reflexivity|].
  repeat apply conj; vm_compute; reflexivity.
Qed.

(** A SPARSE_HYBRID_MERGED image of exactly its 4 + 2 words is
    refused: the state is reformatted as SPARSE_HYBRID_HIP and the
    capacity check asks for 8 + 2 words. *)
Example importFromMemory_sparse_hybrid_merged_refused :
  getFormatOrdinal sparse_hybrid_merged_image = Ok CpcFormatSparseHybridMerged
  /\ len sparse_hybrid_merged_image = 4 * (pre_ints 2 + 2)
  /\ importFromMemory sparse_hybrid_merged_image
     = Err "insufficient image bytes".
Proof. repeat apply conj; vm_compute; reflexivity. Qed.

(** C3 as stated fails: on the PINNED_SLIDING_MERGED_NOSV sample image
    [importFromMemory] neither returns a state nor an error, it
    panics. *)
Lemma importFromMemory_pinned_sliding_panics :
  getFormatOrdinal pinned_sliding_image = Ok CpcFormatPinnedSlidingMergedNosv
  /\ importFromMemory pinned_sliding_image = Panic "not implemented"
  /\ ~ returns (importFromMemory pinned_sliding_image).
Proof.
  split; [vm_compute; reflexivity|]. split; [vm_compute; reflexivity|].
  intros [[st H]|[e H]]; vm_compute in H; discriminate H.
Qed.

(** Deciding a call on a concrete image by evaluation. *)
Ltac known H :=
  vm_compute in H; first [discriminate H | injection H as <- | idtac].

Ltac by_call H := vm_compute in H; discriminate H.

Ltac header Hsw :=
  let lgK := fresh "lgK" in
  let h := fresh "h" in
  let HlgK := fresh "HlgK" in
  let Hh := fresh "Hh" in
  let Hnew := fresh "Hnew" in
  let Hord := fresh "Hord" in
  destruct Hsw as (_ & _ & lgK & h & HlgK & Hh & Hnew & Hord);
  known HlgK; known Hh; known Hnew; known Hord.

(** None of the calls [importFromMemory] makes on a concrete image
    panics: one case for each call. *)
Ltac no_callee_panics :=
  let msg := fresh "msg" in
  let Hp := fresh "Hp" in
  intros msg Hp;
  destruct Hp as
    [ H | Hlo H | Hlo Hc H | lgK Hlo Hc HlgK H | lgK h Hlo Hc HlgK Hh H
    | lgK h st0 Hlo Hc HlgK Hh Hnew H
    | st0 ord Hsw Hcase H | st0 ord Hsw Hcase H | st0 ord n Hsw Hcase Hn H
    | st0 n sv Hsw Hn Hsv H | st0 n sv x Hsw Hn Hsv Hx H
    | st0 ord n sv r Hrc H | st0 ord n sv r Hrc Hcap H ];
  [ by_call H | by_call H | by_call H | by_call H
  | known HlgK; known Hh; by_call H
  | by_call H
  | by_call H
  | first [by_call H | header Hsw; lia]
  | first [by_call H | header Hsw; lia]
  | first [by_call H | header Hsw; lia]
  | first [by_call H | header Hsw; lia]
  | destruct Hrc as (Hsw & Hcase & Hn & Hsv & Hr); header Hsw;
    first [lia | known Hn; known Hsv; known Hr; by_call H]
  | destruct Hrc as (Hsw & Hcase & Hn & Hsv & Hr); header Hsw;
    first [lia
          | known Hn; known Hsv; known Hr; first [by_call Hcap | by_call H]] ].

Lemma importFromMemory_panics_or_returns_witness :
  importFromMemory pinned_sliding_image = Panic "not implemented"
  /\ ("not implemented" = "not implemented"
      /\ (exists st0 ord, reaches_switch pinned_sliding_image st0 ord
                          /\ ~ 0 <= ord <= 3)
      \/ callee_panics pinned_sliding_image "not implemented")
  /\ returns (importFromMemory empty_merged_image)
  /\ returns (importFromMemory empty_hip_image)
  /\ returns (importFromMemory sparse_hybrid_merged_image)
  /\ returns (importFromMemory sparse_hybrid_hip_image).
Proof.
  destruct (@importFromMemory_panics_or_returns ref_pre) as (HA & HB & HC).
  assert (importFromMemory pinned_sliding_image = Panic "not implemented")
    as Hpanic.
  { apply (HA pinned_sliding_image 10 4660 4);
      solve [vm_compute; reflexivity | lia]. }
  split; [exact Hpanic|]. split; [exact (proj1 (HB _ _) Hpanic)|].
  repeat apply conj;
    (apply HC;
     [ intros ord Hord; vm_compute in Hord; injection Hord as <-; lia
     | no_callee_panics ]).
Defined.

(** The four accepted formats at work: the two EMPTY images and the
    SPARSE_HYBRID_HIP image are imported, the SPARSE_HYBRID_MERGED image
    of exactly its own size gets an error. *)
Example importFromMemory_four_formats :
  (exists st, importFromMemory empty_merged_image = Ok st)
  /\ (exists st, importFromMemory empty_hip_image = Ok st)
  /\ importFromMemory sparse_hybrid_merged_image
     = Err "insufficient image bytes"
  /\ (exists st, importFromMemory sparse_hybrid_hip_image = Ok st).
Proof.
  repeat apply conj;
    first [vm_compute; reflexivity | eexists; vm_compute; reflexivity].
Qed.

Lemma importFromMemory_sparse_hybrid_NumCsv_witness :
  exists st,
    importFromMemory sparse_hybrid_hip_image = Ok st
    /\ NumCsv st = NumCoupons st.
Proof.
  eexists. split; [vm_compute; reflexivity|].
  apply (@importFromMemory_sparse_hybrid_NumCsv ref_pre
           sparse_hybrid_hip_image _ 3);
    [vm_compute; reflexivity | vm_compute; reflexivity | right; reflexivity].
Defined.

End ImportExamples.

(** ** Uncompressing a state *)

Section UncompressFacts.
Import GoInt Cpc.
Context {ops : SketchOps}.

(** [uncompress] returns a sketch exactly when the constructor and the
    offset function do, and then the sketch is the constructed one with
    eight fields overwritten. *)
Lemma uncompress_Ok_iff (c : CpcCompressedState) (seed : Z) (sk : CpcSketch) :
  uncompress c seed = Ok sk <->
  exists sk0 wo,
    NewCpcSketch (LgK c) seed = Ok sk0
    /\ determineCorrectOffset (LgK c) (NumCoupons c) = Ok wo
    /\ sk = {| lgK := lgK sk0; seed := Cpc.seed sk0;
               numCoupons := NumCoupons c; windowOffset := wo;
               fiCol := FiCol c; mergeFlag := MergeFlag c;
               kxp := Kxp c; hipEstAccum := HipEstAccum c;
               slidingWindow := None; pairTable := None |}.
Proof.
  unfold uncompress, getWindowOffset. split.
  - destruct (NewCpcSketch (LgK c) seed) as [sk0| |]; cbn; [|discriminate..].
    destruct (determineCorrectOffset (LgK c) (NumCoupons c)) as [wo| |];
      cbn; [|discriminate..].
    intros [= <-]. exists sk0, wo. destruct sk0. repeat split.
  - intros (sk0 & wo & -> & -> & ->). destruct sk0. reflexivity.
Qed.

(** The stored seed hash plays no part in [uncompress]. *)
Lemma uncompress_ignores_SeedHash (c : CpcCompressedState) (h seed : Z) :
  uncompress (set_SeedHash h c) seed = uncompress c seed.
Proof. destruct c. reflexivity. Qed.

(** C6: whenever [uncompress] succeeds, the sketch carries the state's
    [NumCoupons], [FiCol], [MergeFlag], [Kxp] and [HipEstAccum], its
    window offset is [determineCorrectOffset(LgK, NumCoupons)], and its
    sliding window and pair table are nil. *)
Theorem uncompress_fields (c : CpcCompressedState) (seed : Z) (sk : CpcSketch) :
  uncompress c seed = Ok sk ->
  numCoupons sk = NumCoupons c
  /\ getWindowOffset c = Ok (windowOffset sk)
  /\ determineCorrectOffset (LgK c) (NumCoupons c) = Ok (windowOffset sk)
  /\ fiCol sk = FiCol c
  /\ mergeFlag sk = MergeFlag c
  /\ kxp sk = Kxp c
  /\ hipEstAccum sk = HipEstAccum c
  /\ slidingWindow sk = None
  /\ pairTable sk = None.
Proof.
  intros Hok. apply uncompress_Ok_iff in Hok.
  destruct Hok as (sk0 & wo & _ & Hwo & ->). cbn.
  unfold getWindowOffset. repeat split; assumption.
Qed.

(** C4: the seed hash is not checked.  If [uncompress] succeeds on a
    state, it succeeds with the same sketch on that state with any other
    stored [SeedHash], whatever the seed is: no stored hash makes it
    fail. *)
Theorem uncompress_any_SeedHash
    (c : CpcCompressedState) (seed h : Z) (sk : CpcSketch) :
  uncompress c seed = Ok sk ->
  uncompress (set_SeedHash h c) seed = Ok sk
  /\ SeedHash (set_SeedHash h c) = h.
Proof.
  intros Hok. rewrite uncompress_ignores_SeedHash.
  split; [exact Hok|]. destruct c. reflexivity.
Qed.

End UncompressFacts.

Section UncompressExamples.
Import GoInt Cpc CpcReference.

Lemma uncompress_fields_witness :
  exists sk,
    uncompress (state_of 3 2 0 false) 9001 = Ok sk
    /\ numCoupons sk = NumCoupons (state_of 3 2 0 false)
    /\ determineCorrectOffset 10 3 = Ok (windowOffset sk)
    /\ mergeFlag sk = MergeFlag (state_of 3 2 0 false)
    /\ slidingWindow sk = None /\ pairTable sk = None.
Proof.
  eexists. split; [vm_compute; reflexivity|].
  match goal with
  | |- numCoupons ?sk = _ /\ _ =>
      destruct (@uncompress_fields ref_ops (state_of 3 2 0 false) 9001 sk
                  ltac:(vm_compute; reflexivity))
        as (Hn & _ & Hwo & _ & Hm & _ & _ & Hs & Hp)
  end.
  repeat split; assumption.
Defined.

Lemma uncompress_any_SeedHash_witness :
  exists sk,
    uncompress (state_of 3 2 0 false) 9001 = Ok sk
    /\ uncompress (set_SeedHash 1 (state_of 3 2 0 false)) 9001 = Ok sk
    /\ uncompress (set_SeedHash 2 (state_of 3 2 0 false)) 9001 = Ok sk.
Proof.
  eexists. split; [vm_compute; reflexivity|]. split.
  - apply (@uncompress_any_SeedHash ref_ops (state_of 3 2 0 false) 9001 1).
    vm_compute. reflexivity.
  - apply (@uncompress_any_SeedHash ref_ops (state_of 3 2 0 false) 9001 2).
    vm_compute. reflexivity.
Defined.

(** Whatever the seed hash function is, for every seed there is a state
    whose stored [SeedHash] disagrees with the hash of the seed and on
    which [uncompress] nevertheless succeeds: the states with [SeedHash]
    1 and 2 are both accepted. *)
Example uncompress_accepts_seed_mismatch (computeSeedHash : Z -> Z) (seed : Z) :
  exists c sk,
    SeedHash c <> computeSeedHash seed
    /\ uncompress c seed = Ok sk
    /\ Cpc.seed sk = seed.
Proof.
  destruct (decide (computeSeedHash seed = 1)) as [E|E].
  - exists (set_SeedHash 2 (state_of 3 2 0 false)). eexists.
    split; [cbn; lia|]. split; [vm_compute; reflexivity|reflexivity].
  - exists (set_SeedHash 1 (state_of 3 2 0 false)). eexists.
    split; [cbn; lia|]. split; [vm_compute; reflexivity|reflexivity].
Qed.

End UncompressExamples.

(** ** Frequent-items sketch *)

Section ItemsSketchFacts.
Import GoInt Frequencies.
Context {K : Type} `{Countable K}.

(** C8: [update] with the nil sentinel succeeds and returns the sketch
    as it was: stream length, counter map, number of active items and
    emptiness are unchanged. *)
Theorem update_nil_noop (s : ItemsSketch K) :
  exists s',
    update s None = Ok s'
    /\ s' = s
    /\ get_stream_length s' = get_stream_length s
    /\ counter_map s' = counter_map s
    /\ get_num_active_items s' = get_num_active_items s
    /\ is_empty s' = is_empty s.
Proof. exists s. repeat split. Qed.

(** C9: for an item that is not in the counter map, the three point
    queries succeed; estimate and lower bound are 0 and the upper bound
    is 0 + offset, which is 0 on a freshly constructed sketch. *)
Theorem queries_on_absent_item :
  (forall (s : ItemsSketch K) (item : option K),
     lookup_item s item = None ->
     in_int (offset s) ->
     get_estimate s item = Ok 0
     /\ get_lower_bound s item = Ok 0
     /\ get_upper_bound s item = Ok (0 + offset s))
  /\ (forall (lg_max : Z) (h : K -> Z) (s : ItemsSketch K) (item : option K),
        new lg_max h = Ok s ->
        lookup_item s item = None
        /\ get_estimate s item = Ok 0
        /\ get_lower_bound s item = Ok 0
        /\ get_upper_bound s item = Ok 0).
Proof.
  assert (forall (s : ItemsSketch K) (item : option K),
            lookup_item s item = None -> stored s item = 0) as Hstored.
  { intros s item Habs. unfold stored. rewrite Habs. reflexivity. }
  split.
  - intros s item Habs Hoff.
    unfold get_estimate, get_lower_bound, get_upper_bound.
    rewrite (Hstored _ _ Habs). repeat split.
    f_equal. apply int64_id. exact Hoff.
  - intros lg_max h s item Hnew. unfold new in Hnew.
    destruct (lg_max <? _LG_MIN_MAP_SIZE); [discriminate|].
    injection Hnew as <-.
    assert (lookup_item
              {| lg_max_map_size := lg_max;
                 lg_cur_map_size := _LG_MIN_MAP_SIZE;
                 counter_map := ∅; offset := 0; stream_length := 0;
                 hasher := h |} item = None) as Habs.
    { unfold lookup_item. destruct item as [k|]; cbn; [|reflexivity].
      apply lookup_empty. }
    split; [exact Habs|].
    unfold get_estimate, get_lower_bound, get_upper_bound.
    rewrite (Hstored _ _ Habs). repeat split.
Qed.

End ItemsSketchFacts.

Section ItemsSketchExamples.
Import GoInt Frequencies.

Lemma queries_on_absent_item_witness :
  exists s,
    run 3 int_hasher estimation_stream = Ok s
    /\ offset s = 2
    /\ get_estimate s (Some 99) = Ok 0
    /\ get_lower_bound s (Some 99) = Ok 0
    /\ get_upper_bound s (Some 99) = Ok (0 + offset s)
    /\ (forall s0, new 3 string_hasher = Ok s0 ->
                   get_upper_bound s0 (Some "a") = Ok 0).
Proof.
  eexists. split; [vm_compute; reflexivity|].
  split; [reflexivity|].
  destruct (@queries_on_absent_item Z _ _) as [Habs _].
  destruct (@queries_on_absent_item string _ _) as [_ Hnew].
  match goal with
  | |- get_estimate ?s ?i = _ /\ _ =>
      destruct (Habs s i) as (He & Hl & Hu);
        [vm_compute; reflexivity | unfold in_int; cbn; lia |]
  end.
  split; [exact He|]. split; [exact Hl|]. split; [exact Hu|].
  intros s0 Hs0. apply (Hnew 3 string_hasher s0 (Some "a") Hs0).
Defined.

(** The scenarios of the tests, run on the model. *)

Example TestEmpty :
  (s ← new 3 string_hasher;
   lb ← get_lower_bound s (Some "a");
   ub ← get_upper_bound s (Some "a");
   Ok (is_empty s, get_num_active_items s, get_stream_length s, lb, ub))
  = Ok (true, 0, 0, 0, 0).
Proof. vm_compute. reflexivity. Qed.

Example TestNilInput :
  (s ← new 3 string_hasher;
   s ← update s None;
   lb ← get_lower_bound s None;
   ub ← get_upper_bound s None;
   Ok (is_empty s, get_num_active_items s, get_stream_length s, lb, ub))
  = Ok (true, 0, 0, 0, 0).
Proof. vm_compute. reflexivity. Qed.

Example TestOneItem :
  (s ← run 3 string_hasher one_item;
   est ← get_estimate s (Some "a");
   lb ← get_lower_bound s (Some "a");
   Ok (is_empty s, get_num_active_items s, get_stream_length s, est, lb))
  = Ok (false, 1, 1, 1, 1).
Proof. vm_compute. reflexivity. Qed.

Example TestSeveralItem :
  (s ← run 3 string_hasher several_items;
   a ← get_estimate s (Some "a");
   b ← get_estimate s (Some "b");
   c ← get_estimate s (Some "c");
   d ← get_estimate s (Some "d");
   s' ← reset s;
   Ok (is_empty s, get_num_active_items s, get_stream_length s,
       [a; b; c; d],
       is_empty s', get_num_active_items s', get_stream_length s'))
  = Ok (false, 4, 7, [1; 3; 2; 1], true, 0, 0).
Proof. vm_compute. reflexivity. Qed.

Example TestEstimationMode :
  (s ← run 3 int_hasher estimation_stream;
   lb1 ← get_lower_bound s (Some 1);
   lb7 ← get_lower_bound s (Some 7);
   Ok (is_empty s, get_stream_length s, offset s,
       get_num_active_items s, lb1, lb7))
  = Ok (false, 35, 2, 2, 8, 13).
Proof. vm_compute. reflexivity. Qed.

End ItemsSketchExamples.

(** * Further properties of the code *)

(** ** Constructing a state and deriving its format *)

Section FormatExtras.
Import GoInt Cpc.

Lemma getFormat_testbits (c : CpcCompressedState) :
  Z.testbit (getFormat c) 2 = (0 <? CwLengthInts c)
  /\ Z.testbit (getFormat c) 1 = (0 <? NumCsv c)
  /\ Z.testbit (getFormat c) 0 = MergeFlag c.
Proof.
  rewrite getFormat_bits.
  destruct (0 <? CwLengthInts c), (0 <? NumCsv c), (MergeFlag c);
    repeat apply conj; reflexivity.
Qed.

(** X1: two states have the same format exactly when they agree on the
    three tests [CwLengthInts > 0], [NumCsv > 0] and [MergeFlag]; every
    other field, and the size of a positive or the sign of a non-positive
    count, is irrelevant. *)
Theorem getFormat_eq_iff (c1 c2 : CpcCompressedState) :
  getFormat c1 = getFormat c2 <->
  (0 <? CwLengthInts c1) = (0 <? CwLengthInts c2)
  /\ (0 <? NumCsv c1) = (0 <? NumCsv c2)
  /\ MergeFlag c1 = MergeFlag c2.
Proof.
  split.
  - intros Heq.
    destruct (getFormat_testbits c1) as (A1 & B1 & C1).
    destruct (getFormat_testbits c2) as (A2 & B2 & C2).
    rewrite Heq in A1, B1, C1. repeat apply conj; congruence.
  - intros (A & B & C). rewrite !getFormat_bits, A, B, C. reflexivity.
Qed.

(** X2: every ordinal of the format table is the format of some state:
    with X1, [getFormat] is a bijection between the eight triples of
    tests and the ordinals 0..7. *)
Theorem getFormat_onto (ordinal : Z) :
  0 <= ordinal <= 7 ->
  exists c, getFormat c = ordinal
            /\ (0 <? CwLengthInts c) = Z.testbit ordinal 2
            /\ (0 <? NumCsv c) = Z.testbit ordinal 1
            /\ MergeFlag c = Z.testbit ordinal 0.
Proof.
  intros Hr.
  exists {| CsvIsValid := false; WindowIsValid := false; LgK := 0;
            SeedHash := 0; FiCol := 0; MergeFlag := Z.testbit ordinal 0;
            NumCoupons := 0; Kxp := S754_zero false;
            HipEstAccum := S754_zero false;
            NumCsv := if Z.testbit ordinal 1 then 1 else 0;
            CsvStream := []; CsvLengthInts := 0; CwStream := [];
            CwLengthInts := if Z.testbit ordinal 2 then 1 else 0 |}.
  assert (ordinal = 0 \/ ordinal = 1 \/ ordinal = 2 \/ ordinal = 3 \/
          ordinal = 4 \/ ordinal = 5 \/ ordinal = 6 \/ ordinal = 7) as Hc by lia.
  destruct Hc as [->|[->|[->|[->|[->|[->|[->| ->]]]]]]];
    repeat apply conj; reflexivity.
Qed.

(** X3: [getDefinedPreInts] returns exactly for the ordinals 0..7, with
    an even number of preamble words between 2 and 10; any other index
    panics. *)
Theorem getDefinedPreInts_total_on_table (format : CpcFormat) :
  (0 <= format <= 7 ->
   exists n, getDefinedPreInts format = Ok n
             /\ 2 <= n <= 10 /\ n mod 2 = 0)
  /\ (~ 0 <= format <= 7 ->
      getDefinedPreInts format = Panic "index out of range").
Proof.
  split; [|apply getDefinedPreInts_outside].
  intros Hf. exists (pre_ints format).
  split; [apply getDefinedPreInts_table, Hf|].
  assert (format = 0 \/ format = 1 \/ format = 2 \/ format = 3 \/
          format = 4 \/ format = 5 \/ format = 6 \/ format = 7) as Hc by lia.
  destruct Hc as [->|[->|[->|[->|[->|[->|[->| ->]]]]]]];
    (split; [cbn; lia | reflexivity]).
Qed.

(** X4: for stream lengths that are 32-bit words, as an image carries
    them, the required size does not overflow: it is the exact value
    4 * (pre_ints + csv + cw), a multiple of 4, at least the 8 bytes of
    the low preamble and below 2^36. *)
Theorem getRequiredSerializedBytes_words (c : CpcCompressedState) :
  0 <= CsvLengthInts c < 2 ^ 32 ->
  0 <= CwLengthInts c < 2 ^ 32 ->
  exists n,
    getRequiredSerializedBytes c = Ok n
    /\ n = 4 * (pre_ints (getFormat c) + CsvLengthInts c + CwLengthInts c)
    /\ 8 <= n < 2 ^ 36
    /\ n mod 4 = 0.
Proof.
  intros Hcsv Hcw.
  assert (2 <= pre_ints (getFormat c) <= 10) as Hpre.
  { pose proof (getFormat_range c) as Hr.
    assert (getFormat c = 0 \/ getFormat c = 1 \/ getFormat c = 2 \/
            getFormat c = 3 \/ getFormat c = 4 \/ getFormat c = 5 \/
            getFormat c = 6 \/ getFormat c = 7) as Hc by lia.
    destruct Hc as [->|[->|[->|[->|[->|[->|[->| ->]]]]]]]; cbn; lia. }
  exists (4 * (pre_ints (getFormat c) + CsvLengthInts c + CwLengthInts c)).
  split.
  - rewrite getRequiredSerializedBytes_int. f_equal.
    apply int_id. unfold in_int. lia.
  - split; [reflexivity|]. split; [lia|].
    rewrite Z.mul_comm. apply Z_mod_mult.
Qed.

(** X5: [NewCpcCompressedState] panics on a negative [lgK] (the shift
    count) and otherwise returns an empty state: it keeps [lgK] and the
    seed hash, has no coupons and nil streams, its format is ordinal 0
    and it requires the 8 bytes of the low preamble. *)
Theorem NewCpcCompressedState_outcome (lgK seedHash : Z) :
  (lgK < 0 ->
   NewCpcCompressedState lgK seedHash = Panic "negative shift amount")
  /\ (0 <= lgK ->
      exists st,
        NewCpcCompressedState lgK seedHash = Ok st
        /\ LgK st = lgK /\ SeedHash st = seedHash
        /\ NumCoupons st = 0 /\ NumCsv st = 0
        /\ CsvStream st = [] /\ CwStream st = []
        /\ getFormat st = CpcformatEmptyMerged
        /\ getRequiredSerializedBytes st = Ok 8).
Proof.
  unfold NewCpcCompressedState, shl_int. split.
  - intros Hneg. apply Z.ltb_lt in Hneg. rewrite Hneg. reflexivity.
  - intros Hpos. apply Z.ltb_ge in Hpos. rewrite Hpos. cbn.
    eexists. split; [reflexivity|]. repeat apply conj; reflexivity.
Qed.

End FormatExtras.

Section KxpExtras.
Import GoInt Cpc.

Lemma float64_of_pow2_table :
  forallb
    (fun k => match float64_of_int (2 ^ k) with
              | S754_finite false m e => (Zpos m =? 2 ^ 52) && (e =? k - 52)
              | _ => false
              end)
    (seqZ 0 63) = true.
Proof. vm_compute. reflexivity. Qed.

(** Converting a power of two below 2^63 is exact: mantissa 2^52,
    exponent [k - 52]. *)
Lemma float64_of_pow2 (k : Z) :
  0 <= k <= 62 ->
  float64_of_int (2 ^ k) = S754_finite false (2 ^ 52)%positive (k - 52).
Proof.
  intros Hk. pose proof float64_of_pow2_table as Htab.
  rewrite forallb_forall in Htab. specialize (Htab k).
  assert (In k (seqZ 0 63)) as Hin
    by (apply list_elem_of_In, elem_of_seqZ; lia).
  specialize (Htab Hin).
  destruct (float64_of_int (2 ^ k)) as [| | |[|] m e]; try discriminate.
  apply andb_true_iff in Htab. destruct Htab as [Hm He].
  apply Z.eqb_eq in Hm, He. subst e. f_equal.
  apply Pos2Z.inj. rewrite Hm. reflexivity.
Qed.

(** X6: the [Kxp] of a new state is [float64(int(1) << lgK)]: exactly
    2^lgK (mantissa 2^52, exponent lgK - 52) up to [lgK = 62]; at
    [lgK = 63] the shift wraps and [Kxp] is -2^63; from 64 on the shift
    gives 0 and [Kxp] is +0. *)
Theorem NewCpcCompressedState_Kxp
    (lgK seedHash : Z) (st : CpcCompressedState) :
  NewCpcCompressedState lgK seedHash = Ok st ->
  0 <= lgK
  /\ (lgK <= 62 -> Kxp st = S754_finite false (2 ^ 52)%positive (lgK - 52))
  /\ (lgK = 63 -> Kxp st = S754_finite true (2 ^ 52)%positive 11)
  /\ (64 <= lgK -> Kxp st = S754_zero false).
Proof.
  unfold NewCpcCompressedState, shl_int.
  destruct (lgK <? 0) eqn:Hneg; cbn; [discriminate|].
  apply Z.ltb_ge in Hneg. intros [= <-]. cbn [Kxp].
  rewrite Z.shiftl_1_l. split; [exact Hneg|]. split; [|split].
  - intros Hle. rewrite int_id; [apply float64_of_pow2; lia|].
    unfold in_int. split.
    + pose proof (Z.pow_nonneg 2 lgK ltac:(lia)). lia.
    + apply Z.pow_lt_mono_r; lia.
  - intros ->. vm_compute. reflexivity.
  - intros Hge.
    assert (int (2 ^ lgK) = 0) as ->; [|vm_compute; reflexivity].
    transitivity (int 0); [|reflexivity].
    apply (int_congr _ _ (2 ^ (lgK - 64))).
    rewrite Z.add_0_l, <- Z.pow_add_r by lia. f_equal. lia.
Qed.

End KxpExtras.

(** ** What an import reads, checks and stores *)

Section ImportExtras.
Import GoInt Cpc.
Context {pre : PreambleUtil}.

(** Case analysis on the next call of a sequence, naming its result. *)
Tactic Notation "step" hyp(H) "as" ident(x) ident(E) :=
  match type of H with
  | context [mbind _ ?m] =>
      destruct m as [x| |] eqn:E; cbn in H; try discriminate H
  end.

Lemma getRequiredSerializedBytes_set_CsvStream
    (stream : list Z) (c : CpcCompressedState) :
  getRequiredSerializedBytes (set_CsvStream stream c)
  = getRequiredSerializedBytes c.
Proof. destruct c. reflexivity. Qed.

(** Everything a successful import has done, arm by arm. *)
Lemma importFromMemory_Ok_cases (bytes : list byte) (st : CpcCompressedState) :
  importFromMemory bytes = Ok st ->
  exists lgK ord,
    checkLoPreamble bytes = Ok tt
    /\ isCompressed bytes = Ok true
    /\ getLgK bytes = Ok lgK /\ 0 <= lgK
    /\ getSeedHash bytes = Ok (SeedHash st)
    /\ getFormatOrdinal bytes = Ok ord
    /\ LgK st = lgK /\ FiCol st = 0
    /\ MergeFlag st = (Z.land ord 1 =? 0)
    /\ CsvIsValid st = (0 <? Z.land ord 2)
    /\ WindowIsValid st = (0 <? Z.land ord 4)
    /\ CwStream st = [] /\ CwLengthInts st = 0
    /\ (exists r, getRequiredSerializedBytes st = Ok r
                  /\ checkCapacity (len bytes) r = Ok tt)
    /\ ((ord = 0 \/ ord = 1)
        /\ NumCoupons st = 0 /\ NumCsv st = 0
        /\ CsvLengthInts st = 0 /\ CsvStream st = []
        /\ Kxp st = float64_of_int (int (Z.shiftl 1 lgK))
        /\ HipEstAccum st = S754_zero false
        \/ (ord = 2 \/ ord = 3)
           /\ getNumCoupons bytes = Ok (NumCoupons st)
           /\ NumCsv st = int (NumCoupons st)
           /\ getSvLengthInts bytes = Ok (CsvLengthInts st)
           /\ getSvStream bytes = Ok (CsvStream st)
           /\ (ord = 2 ->
               Kxp st = float64_of_int (int (Z.shiftl 1 lgK))
               /\ HipEstAccum st = S754_zero false)
           /\ (ord = 3 ->
               getKxP bytes = Ok (Kxp st)
               /\ getHipAccum bytes = Ok (HipEstAccum st))).
Proof.
  unfold importFromMemory. intros H.
  step H as u Hlo. destruct u. step H as b Hcomp.
  destruct b; cbn in H; [|discriminate].
  step H as lgK HlgK. step H as h Hseed. step H as st0 Hnew.
  unfold NewCpcCompressedState, shl_int in Hnew.
  destruct (lgK <? 0) eqn:Hneg; cbn in Hnew; [discriminate|].
  apply Z.ltb_ge in Hneg. injection Hnew as <-. cbn in H.
  step H as ord Hord. exists lgK, ord.
  destruct ((ord =? CpcformatEmptyMerged) || (ord =? CpcFormatEmptyHip))
    eqn:Hempty.
  { step H as u Hcap. destruct u. injection H as <-. cbn.
    repeat (split; [first [reflexivity | assumption]|]).
    split.
    - exists 8. split; [|assumption].
      unfold getRequiredSerializedBytes, getFormat. cbn.
      destruct (Z.land ord 1 =? 0); reflexivity.
    - left. apply orb_true_iff in Hempty.
      unfold CpcformatEmptyMerged, CpcFormatEmptyHip in Hempty.
      repeat apply conj; first [reflexivity | lia]. }
  destruct (ord =? CpcFormatSparseHybridMerged) eqn:Hmerged.
  { step H as n Hn. step H as sv Hsv. step H as r Hreq. step H as u Hcap. destruct u.
    step H as stream Hstream. injection H as <-. cbn.
    repeat (split; [first [reflexivity | assumption]|]).
    split.
    - exists r. split; [exact Hreq|assumption].
    - right. unfold CpcFormatSparseHybridMerged in Hmerged.
      split; [lia|]. repeat (split; [reflexivity|]).
      split; [intros _; split; reflexivity | intros ->; discriminate]. }
  destruct (ord =? CpcFormatSparceHybridHip) eqn:Hhip; [|discriminate].
  step H as n Hn. step H as sv Hsv. step H as x Hx. step H as hip Hhipacc.
  step H as r Hreq. step H as u Hcap. destruct u.
  step H as stream Hstream. injection H as <-. cbn.
  repeat (split; [first [reflexivity | assumption]|]).
  split.
  - exists r. split; [exact Hreq|assumption].
  - right. unfold CpcFormatSparceHybridHip in Hhip.
    split; [lia|]. repeat (split; [reflexivity|]).
    split; [intros ->; discriminate | intros _; split; reflexivity].
Qed.

(** X7: a failed low-preamble check is returned as it is and nothing else
    is looked at; an image that passes it but is not compressed is
    refused with "not compressed"; so a successful import implies both
    checks passed. *)
Theorem importFromMemory_rejects (bytes : list byte) :
  (forall e, checkLoPreamble bytes = Err e -> importFromMemory bytes = Err e)
  /\ (checkLoPreamble bytes = Ok tt -> isCompressed bytes = Ok false ->
      importFromMemory bytes = Err "not compressed")
  /\ (forall st, importFromMemory bytes = Ok st ->
                 checkLoPreamble bytes = Ok tt
                 /\ isCompressed bytes = Ok true).
Proof.
  split; [|split].
  - intros e He. unfold importFromMemory. rewrite He. reflexivity.
  - intros Hlo Hc. unfold importFromMemory. rewrite Hlo. cbn.
    rewrite Hc. reflexivity.
  - intros st Hok.
    destruct (importFromMemory_Ok_cases _ _ Hok)
      as (lgK & ord & Hlo & Hc & _). split; assumption.
Qed.

(** X8: the header of an imported state is what the accessors read:
    [LgK] (never negative) and [SeedHash] are the values of [getLgK] and
    [getSeedHash], the stored ordinal is in 0..3, [MergeFlag] is the
    complement of its bit 0 and [CsvIsValid] is its bit 1. *)
Theorem importFromMemory_header (bytes : list byte) (st : CpcCompressedState) :
  importFromMemory bytes = Ok st ->
  getLgK bytes = Ok (LgK st) /\ 0 <= LgK st
  /\ getSeedHash bytes = Ok (SeedHash st)
  /\ exists ord,
       getFormatOrdinal bytes = Ok ord /\ 0 <= ord <= 3
       /\ MergeFlag st = negb (Z.testbit ord 0)
       /\ CsvIsValid st = Z.testbit ord 1.
Proof.
  intros Hok.
  destruct (importFromMemory_Ok_cases _ _ Hok)
    as (lgK & ord & _ & _ & HlgK & Hpos & Hseed & Hord & <- & _ & Hm & Hcsv
        & _ & _ & _ & _ & Harm).
  repeat (split; [assumption|]). exists ord. split; [assumption|].
  rewrite Hm, Hcsv.
  assert (ord = 0 \/ ord = 1 \/ ord = 2 \/ ord = 3) as Hc
    by (destruct Harm as [(? & _)|(? & _)]; lia).
  destruct Hc as [->|[->|[->| ->]]]; repeat apply conj; first [lia|reflexivity].
Qed.

(** X9: an import never produces window data: on every imported state
    [WindowIsValid] is false, [CwLengthInts] is 0, [CwStream] is nil and
    [FiCol] is 0. *)
Theorem importFromMemory_no_window (bytes : list byte) (st : CpcCompressedState) :
  importFromMemory bytes = Ok st ->
  WindowIsValid st = false /\ CwLengthInts st = 0
  /\ CwStream st = [] /\ FiCol st = 0.
Proof.
  intros Hok.
  destruct (importFromMemory_Ok_cases _ _ Hok)
    as (lgK & ord & _ & _ & _ & _ & _ & _ & _ & Hfi & _ & _ & Hw
        & Hcw & Hcwl & _ & Harm).
  repeat apply conj; try assumption. rewrite Hw.
  assert (ord = 0 \/ ord = 1 \/ ord = 2 \/ ord = 3) as Hc
    by (destruct Harm as [(? & _)|(? & _)]; lia).
  destruct Hc as [->|[->|[->| ->]]]; reflexivity.
Qed.

(** X10: the buffer of an imported state has passed the capacity check
    for the size the state itself requires:
    [checkCapacity(len(bytes), st.getRequiredSerializedBytes())]
    returned nil, also for the two EMPTY formats, whose check is against
    the constant 8. *)
Theorem importFromMemory_capacity_checked
    (bytes : list byte) (st : CpcCompressedState) :
  importFromMemory bytes = Ok st ->
  exists r,
    getRequiredSerializedBytes st = Ok r
    /\ checkCapacity (len bytes) r = Ok tt.
Proof.
  intros Hok.
  destruct (importFromMemory_Ok_cases _ _ Hok)
    as (lgK & ord & _ & _ & _ & _ & _ & _ & _ & _ & _ & _ & _ & _ & _
        & Hcap & _).
  exact Hcap.
Qed.

(** X11: a SPARSE_HYBRID import stores what the accessors read:
    [NumCoupons], [CsvLengthInts] and [CsvStream] are the values of
    [getNumCoupons], [getSvLengthInts] and [getSvStream]; for ordinal 3
    [Kxp] and [HipEstAccum] are those of [getKxP] and [getHipAccum];
    for ordinal 2 they stay [float64(1 << lgK)] and 0. *)
Theorem importFromMemory_sparse_hybrid_fields
    (bytes : list byte) (st : CpcCompressedState) (ord : Z) :
  importFromMemory bytes = Ok st ->
  getFormatOrdinal bytes = Ok ord ->
  ord = CpcFormatSparseHybridMerged \/ ord = CpcFormatSparceHybridHip ->
  getNumCoupons bytes = Ok (NumCoupons st)
  /\ getSvLengthInts bytes = Ok (CsvLengthInts st)
  /\ getSvStream bytes = Ok (CsvStream st)
  /\ (ord = CpcFormatSparseHybridMerged ->
      Kxp st = float64_of_int (int (Z.shiftl 1 (LgK st)))
      /\ HipEstAccum st = S754_zero false)
  /\ (ord = CpcFormatSparceHybridHip ->
      getKxP bytes = Ok (Kxp st) /\ getHipAccum bytes = Ok (HipEstAccum st)).
Proof.
  intros Hok Hord Hsparse.
  destruct (importFromMemory_Ok_cases _ _ Hok)
    as (lgK & ord' & _ & _ & _ & _ & _ & Hord' & <- & _ & _ & _ & _ & _ & _
        & _ & Harm).
  rewrite Hord in Hord'. injection Hord' as <-.
  unfold CpcFormatSparseHybridMerged, CpcFormatSparceHybridHip in *.
  destruct Harm as [(Hempty & _)|(_ & Hn & _ & Hsv & Hstream & H2 & H3)];
    [lia|].
  repeat apply conj; assumption.
Qed.

(** X12: an EMPTY import reads nothing beyond the low preamble: the
    state has no coupons, no surprising values and nil streams, its [Kxp]
    is [float64(1 << lgK)] and its [HipEstAccum] is 0, and the buffer
    passed [checkCapacity(len(bytes), 8)]. *)
Theorem importFromMemory_empty_fields
    (bytes : list byte) (st : CpcCompressedState) (ord : Z) :
  importFromMemory bytes = Ok st ->
  getFormatOrdinal bytes = Ok ord ->
  ord = CpcformatEmptyMerged \/ ord = CpcFormatEmptyHip ->
  NumCoupons st = 0 /\ NumCsv st = 0
  /\ CsvLengthInts st = 0 /\ CsvStream st = []
  /\ Kxp st = float64_of_int (int (Z.shiftl 1 (LgK st)))
  /\ HipEstAccum st = S754_zero false
  /\ checkCapacity (len bytes) 8 = Ok tt.
Proof.
  intros Hok Hord Hempty.
  destruct (importFromMemory_Ok_cases _ _ Hok)
    as (lgK & ord' & _ & _ & _ & _ & _ & Hord' & <- & _ & Hm & _ & _ & _
        & Hcwl & (r & Hr & Hcap) & Harm).
  rewrite Hord in Hord'. injection Hord' as <-.
  unfold CpcformatEmptyMerged, CpcFormatEmptyHip in *.
  destruct Harm as [(_ & Hn & Hcsv & Hl & Hs & Hk & Hh)|(Hsparse & _)];
    [|lia].
  repeat (split; [assumption|]).
  assert (r = 8) as <-; [|exact Hcap].
  rewrite getRequiredSerializedBytes_int in Hr. injection Hr as <-.
  rewrite getFormat_bits, Hcwl, Hcsv, Hl. cbn.
  destruct (MergeFlag st); reflexivity.
Qed.

(** X13: the format [getFormat] gives an imported state, in terms of the
    stored ordinal: an EMPTY image becomes the other EMPTY format
    (1 - ord); a SPARSE_HYBRID image with at least one coupon becomes
    the other SPARSE_HYBRID format (5 - ord) and one without coupons an
    EMPTY format (3 - ord). *)
Theorem importFromMemory_state_format
    (bytes : list byte) (st : CpcCompressedState) (ord : Z) :
  importFromMemory bytes = Ok st ->
  getFormatOrdinal bytes = Ok ord ->
  (ord = 0 \/ ord = 1 -> getFormat st = 1 - ord)
  /\ (ord = 2 \/ ord = 3 ->
      (0 < NumCoupons st -> getFormat st = 5 - ord)
      /\ (NumCoupons st = 0 -> getFormat st = 3 - ord)).
Proof.
  intros Hok Hord.
  destruct (importFromMemory_Ok_cases _ _ Hok)
    as (lgK & ord' & _ & _ & _ & _ & _ & Hord' & _ & _ & Hm & _ & _ & _
        & Hcwl & _ & Harm).
  rewrite Hord in Hord'. injection Hord' as <-.
  rewrite getFormat_bits, Hcwl, Hm. cbn.
  destruct Harm as [(He & _ & Hcsv & _)|(Hs & Hn & Hcsv & _)].
  - split; [|lia]. intros _. rewrite Hcsv.
    destruct He as [-> | ->]; reflexivity.
  - split; [lia|]. intros _.
    apply getNumCoupons_word in Hn.
    rewrite Hcsv, int_id by (unfold in_int; lia).
    split.
    + intros Hpos. apply Z.ltb_lt in Hpos. rewrite Hpos.
      destruct Hs as [-> | ->]; reflexivity.
    + intros ->. destruct Hs as [-> | ->]; reflexivity.
Qed.

End ImportExtras.

(** ** What [uncompress] reads and passes on *)

Section UncompressExtras.
Import GoInt Cpc.
Context {ops : SketchOps}.

(** X14: [uncompress] has no failure of its own: an error of
    [NewCpcSketch] is returned unchanged, every error [uncompress]
    returns is the error of one of its two callees, and on success the
    sketch keeps the [lgK] and [seed] the constructor gave it. *)
Theorem uncompress_failures (c : CpcCompressedState) (seed : Z) :
  (forall e, NewCpcSketch (LgK c) seed = Err e -> uncompress c seed = Err e)
  /\ (forall e,
        uncompress c seed = Err e ->
        NewCpcSketch (LgK c) seed = Err e
        \/ (exists sk0, NewCpcSketch (LgK c) seed = Ok sk0)
           /\ determineCorrectOffset (LgK c) (NumCoupons c) = Err e)
  /\ (forall sk,
        uncompress c seed = Ok sk ->
        exists sk0, NewCpcSketch (LgK c) seed = Ok sk0
                    /\ lgK sk = lgK sk0 /\ Cpc.seed sk = Cpc.seed sk0).
Proof.
  unfold uncompress, getWindowOffset. repeat apply conj.
  - intros e ->. reflexivity.
  - intros e Herr.
    destruct (NewCpcSketch (LgK c) seed) as [sk0|e0|]; cbn in Herr;
      [|left; exact Herr|discriminate].
    destruct (determineCorrectOffset (LgK c) (NumCoupons c)) as [wo|e0|];
      cbn in Herr; [discriminate| |discriminate].
    injection Herr as <-.
    right. split; [exists sk0; reflexivity|reflexivity].
  - intros sk Hok.
    destruct (NewCpcSketch (LgK c) seed) as [sk0| |]; cbn in Hok;
      [|discriminate..].
    destruct (determineCorrectOffset (LgK c) (NumCoupons c)) as [wo| |];
      cbn in Hok; [|discriminate..].
    injection Hok as <-. exists sk0. destruct sk0.
    repeat apply conj; reflexivity.
Qed.

(** X15: [uncompress] reads six fields of the state only: two states
    that agree on [LgK], [NumCoupons], [FiCol], [MergeFlag], [Kxp] and
    [HipEstAccum] give the same outcome, whatever their streams, stream
    lengths, [NumCsv], validity flags and seed hash are. *)
Theorem uncompress_reads_six_fields (c1 c2 : CpcCompressedState) (seed : Z) :
  LgK c1 = LgK c2 -> NumCoupons c1 = NumCoupons c2 ->
  FiCol c1 = FiCol c2 -> MergeFlag c1 = MergeFlag c2 ->
  Kxp c1 = Kxp c2 -> HipEstAccum c1 = HipEstAccum c2 ->
  uncompress c1 seed = uncompress c2 seed.
Proof.
  intros HlgK Hn Hfi Hm Hk Hh. unfold uncompress, getWindowOffset.
  rewrite HlgK, Hn, Hfi, Hm, Hk, Hh. reflexivity.
Qed.

End UncompressExtras.

(** ** Importing, then uncompressing *)

Section RoundExtras.
Import GoInt Cpc.
Context {pre : PreambleUtil} {ops : SketchOps}.

(** X16: the sketch [uncompress] makes of an imported state: it was
    constructed for the [lgK] read from the image, its merge flag is the
    complement of bit 0 of the stored ordinal, its [fiCol] is 0, its
    coupon count is a 32-bit value (0 for an EMPTY image, the value
    [getNumCoupons] read otherwise) and its window offset is
    [determineCorrectOffset] of that [lgK] and count. *)
Theorem importFromMemory_uncompress
    (bytes : list byte) (st : CpcCompressedState) (ord seed : Z)
    (sk : CpcSketch) :
  importFromMemory bytes = Ok st ->
  getFormatOrdinal bytes = Ok ord ->
  uncompress st seed = Ok sk ->
  (exists lgK sk0,
     getLgK bytes = Ok lgK /\ NewCpcSketch lgK seed = Ok sk0
     /\ determineCorrectOffset lgK (numCoupons sk) = Ok (windowOffset sk))
  /\ mergeFlag sk = negb (Z.testbit ord 0)
  /\ fiCol sk = 0
  /\ 0 <= numCoupons sk < 2 ^ 32
  /\ (ord = 0 \/ ord = 1 -> numCoupons sk = 0)
  /\ (ord = 2 \/ ord = 3 -> getNumCoupons bytes = Ok (numCoupons sk)).
Proof.
  intros Himp Hord Hunc.
  destruct (importFromMemory_Ok_cases _ _ Himp)
    as (lgK & ord' & _ & _ & HlgK & _ & _ & Hord' & HL & Hfi & Hm & _ & _
        & _ & _ & _ & Harm).
  rewrite Hord in Hord'. injection Hord' as <-.
  apply uncompress_Ok_iff in Hunc.
  destruct Hunc as (sk0 & wo & Hnew & Hwo & ->). cbn.
  rewrite HL in Hnew, Hwo.
  split; [exists lgK, sk0; repeat apply conj; assumption|].
  assert (ord = 0 \/ ord = 1 \/ ord = 2 \/ ord = 3) as Hc
    by (destruct Harm as [(? & _)|(? & _)]; lia).
  split.
  { rewrite Hm. destruct Hc as [->|[->|[->| ->]]]; reflexivity. }
  split; [exact Hfi|].
  destruct Harm as [(He & Hn & _)|(Hs & Hn & _)].
  - rewrite Hn. repeat apply conj; first [lia | intros _; reflexivity].
  - pose proof (getNumCoupons_word _ _ Hn) as Hw.
    repeat apply conj; first [lia | intros _; exact Hn].
Qed.

End RoundExtras.

(** ** The hashers of the tests *)

Section HasherExtras.
Import GoInt CpcReference TestHashers.

Lemma u8_byte_of (v : Z) : u8 (byte_of v) = v mod 256.
Proof.
  unfold u8, byte_of.
  pose proof (Z.mod_pos_bound v 256 ltac:(lia)) as Hb.
  destruct (Byte.of_N (Z.to_N (v mod 256))) as [b|] eqn:Hof.
  - apply Byte.to_of_N in Hof. cbn. rewrite Hof. lia.
  - apply Byte.of_N_None_iff in Hof. lia.
Qed.

(** Reading back the [n] little-endian bytes of [v] gives [v] modulo
    256^n. *)
Lemma le_value_le_bytes (n : nat) (v : Z) :
  le_value (le_bytes n v) = v mod 256 ^ Z.of_nat n.
Proof.
  revert v. induction n as [|n IH]; intros v.
  - cbn. symmetry. apply Z.mod_1_r.
  - cbn [le_bytes le_value]. rewrite u8_byte_of, IH.
    rewrite Z.shiftr_div_pow2 by lia. change (2 ^ 8) with 256.
    rewrite Nat2Z.inj_succ, Z.pow_succ_r by lia.
    symmetry. apply Z.rem_mul_r; [lia|]. apply Z.pow_pos_nonneg; lia.
Qed.

Lemma length_le_bytes (n : nat) (v : Z) : length (le_bytes n v) = n.
Proof.
  revert v. induction n as [|n IH]; intros v; cbn; [reflexivity|].
  rewrite IH. reflexivity.
Qed.

(** On an eight-byte array [PutUint64] replaces every byte. *)
Lemma PutUint64_array (b : list byte) (v : Z) :
  length b = 8%nat -> PutUint64 b v = Ok (le_bytes 8 v).
Proof.
  intros Hlen. unfold PutUint64, Cpc.len. rewrite Hlen.
  replace (Z.of_nat 8 <? 8) with false by reflexivity.
  rewrite drop_ge by lia. rewrite app_nil_r. reflexivity.
Qed.

(** X17: [IntHasher.Hash] hashes the eight little-endian bytes of the
    item, whatever its scratch array held; these bytes decode back to
    [uint64(item)], so two [int] items are given the same bytes only if
    they are equal. *)
Theorem IntHasher_Hash_bytes
    (SeedSum64 : Z -> list byte -> Z) (DEFAULT_UPDATE_SEED : Z)
    (h : IntHasher) (item : Z) :
  length (scratch h) = 8%nat ->
  in_int item ->
  IntHasher_Hash SeedSum64 DEFAULT_UPDATE_SEED h item
    = Ok (SeedSum64 DEFAULT_UPDATE_SEED (le_bytes 8 (uint64 item)))
  /\ le_value (le_bytes 8 (uint64 item)) = uint64 item
  /\ int (le_value (le_bytes 8 (uint64 item))) = item
  /\ (forall item', in_int item' ->
        le_bytes 8 (uint64 item') = le_bytes 8 (uint64 item) ->
        item' = item).
Proof.
  intros Hlen Hitem.
  assert (forall x, le_value (le_bytes 8 (uint64 x)) = uint64 x) as Hdec.
  { intros x. rewrite le_value_le_bytes. unfold uint64.
    change (256 ^ Z.of_nat 8) with (2 ^ 64). apply Z.mod_mod. lia. }
  assert (forall x, in_int x -> int (uint64 x) = x) as Hback.
  { intros x Hx. rewrite <- (int_id x Hx) at 2.
    apply (int_congr _ _ (- (x / 2 ^ 64))). unfold uint64.
    pose proof (Z.div_mod x (2 ^ 64) ltac:(lia)). lia. }
  split; [|split; [apply Hdec|split]].
  - unfold IntHasher_Hash. rewrite PutUint64_array by exact Hlen.
    reflexivity.
  - rewrite Hdec. apply Hback, Hitem.
  - intros item' Hitem' Heq.
    rewrite <- (Hback item' Hitem'), <- (Hback item Hitem).
    rewrite <- (Hdec item'), <- (Hdec item), Heq. reflexivity.
Qed.

End HasherExtras.

(** ** The further properties at concrete inputs *)

Section ExtrasExamples.
Import GoInt Cpc CpcReference TestHashers.

Lemma getFormat_eq_iff_witness :
  getFormat (state_of 3 4 0 true) = getFormat (state_of 9 1 0 true)
  /\ MergeFlag (state_of 3 4 0 true) = MergeFlag (state_of 9 1 0 true).
Proof.
  assert (getFormat (state_of 3 4 0 true) = getFormat (state_of 9 1 0 true))
    as Heq.
  { apply (proj2 (getFormat_eq_iff _ _)). repeat apply conj; reflexivity. }
  split; [exact Heq|].
  apply (proj1 (getFormat_eq_iff _ _) Heq).
Defined.

Lemma getFormat_onto_witness :
  exists c, getFormat c = 5
            /\ (0 <? CwLengthInts c) = Z.testbit 5 2
            /\ (0 <? NumCsv c) = Z.testbit 5 1
            /\ MergeFlag c = Z.testbit 5 0.
Proof. apply (getFormat_onto 5). lia. Defined.

Lemma getDefinedPreInts_total_on_table_witness :
  (exists n, getDefinedPreInts 3 = Ok n /\ 2 <= n <= 10 /\ n mod 2 = 0)
  /\ getDefinedPreInts 8 = Panic "index out of range"
  /\ getDefinedPreInts (-1) = Panic "index out of range".
Proof.
  split; [|split].
  - apply (proj1 (getDefinedPreInts_total_on_table 3)). lia.
  - apply (proj2 (getDefinedPreInts_total_on_table 8)). lia.
  - apply (proj2 (getDefinedPreInts_total_on_table (-1))). lia.
Defined.

Lemma getRequiredSerializedBytes_words_witness :
  exists n,
    getRequiredSerializedBytes (state_of 3 4 0 true) = Ok n
    /\ n = 4 * (pre_ints (getFormat (state_of 3 4 0 true))
                + CsvLengthInts (state_of 3 4 0 true)
                + CwLengthInts (state_of 3 4 0 true))
    /\ 8 <= n < 2 ^ 36
    /\ n mod 4 = 0.
Proof.
  apply (getRequiredSerializedBytes_words (state_of 3 4 0 true)); cbn; lia.
Defined.

Lemma NewCpcCompressedState_outcome_witness :
  NewCpcCompressedState (-1) 4660 = Panic "negative shift amount"
  /\ exists st,
       NewCpcCompressedState 10 4660 = Ok st
       /\ LgK st = 10 /\ SeedHash st = 4660
       /\ NumCoupons st = 0 /\ NumCsv st = 0
       /\ CsvStream st = [] /\ CwStream st = []
       /\ getFormat st = CpcformatEmptyMerged
       /\ getRequiredSerializedBytes st = Ok 8.
Proof.
  split.
  - apply (proj1 (NewCpcCompressedState_outcome (-1) 4660)). lia.
  - apply (proj2 (NewCpcCompressedState_outcome 10 4660)). lia.
Defined.

Lemma NewCpcCompressedState_Kxp_witness :
  (exists st, NewCpcCompressedState 10 0 = Ok st
              /\ Kxp st = S754_finite false (2 ^ 52)%positive (10 - 52))
  /\ (exists st, NewCpcCompressedState 63 0 = Ok st
                 /\ Kxp st = S754_finite true (2 ^ 52)%positive 11)
  /\ (exists st, NewCpcCompressedState 70 0 = Ok st
                 /\ Kxp st = S754_zero false).
Proof.
  split; [|split]; eexists; (split; [vm_compute; reflexivity|]).
  - refine (proj1 (proj2 (NewCpcCompressedState_Kxp 10 0 _ _)) _);
      [vm_compute; reflexivity|lia].
  - refine (proj1 (proj2 (proj2 (NewCpcCompressedState_Kxp 63 0 _ _))) _);
      [vm_compute; reflexivity|lia].
  - refine (proj2 (proj2 (proj2 (NewCpcCompressedState_Kxp 70 0 _ _))) _);
      [vm_compute; reflexivity|lia].
Defined.

Lemma importFromMemory_rejects_witness :
  importFromMemory [x02]%byte = Err "insufficient image bytes"
  /\ importFromMemory [x02; x01; x10; x0a; x00; x00; x34; x12]%byte
     = Err "not compressed"
  /\ checkLoPreamble empty_merged_image = Ok tt
  /\ isCompressed empty_merged_image = Ok true.
Proof.
  split; [|split].
  - apply (proj1 (@importFromMemory_rejects ref_pre [x02]%byte)).
    vm_compute. reflexivity.
  - apply (proj1 (proj2 (@importFromMemory_rejects ref_pre
                           [x02; x01; x10; x0a; x00; x00; x34; x12]%byte)));
      vm_compute; reflexivity.
  - refine (proj2 (proj2 (@importFromMemory_rejects ref_pre
                            empty_merged_image)) _ _).
    vm_compute. reflexivity.
Defined.

Lemma importFromMemory_header_witness :
  exists st,
    importFromMemory sparse_hybrid_hip_image = Ok st
    /\ getLgK sparse_hybrid_hip_image = Ok (LgK st) /\ 0 <= LgK st
    /\ getSeedHash sparse_hybrid_hip_image = Ok (SeedHash st)
    /\ exists ord,
         getFormatOrdinal sparse_hybrid_hip_image = Ok ord /\ 0 <= ord <= 3
         /\ MergeFlag st = negb (Z.testbit ord 0)
         /\ CsvIsValid st = Z.testbit ord 1.
Proof.
  eexists. split; [vm_compute; reflexivity|].
  apply (@importFromMemory_header ref_pre sparse_hybrid_hip_image).
  vm_compute. reflexivity.
Defined.

Lemma importFromMemory_no_window_witness :
  exists st,
    importFromMemory sparse_hybrid_hip_image = Ok st
    /\ WindowIsValid st = false /\ CwLengthInts st = 0
    /\ CwStream st = [] /\ FiCol st = 0.
Proof.
  eexists. split; [vm_compute; reflexivity|].
  apply (@importFromMemory_no_window ref_pre sparse_hybrid_hip_image).
  vm_compute. reflexivity.
Defined.

Lemma importFromMemory_capacity_checked_witness :
  exists st,
    importFromMemory sparse_hybrid_hip_image = Ok st
    /\ exists r,
         getRequiredSerializedBytes st = Ok r
         /\ checkCapacity (len sparse_hybrid_hip_image) r = Ok tt.
Proof.
  eexists. split; [vm_compute; reflexivity|].
  apply (@importFromMemory_capacity_checked ref_pre sparse_hybrid_hip_image).
  vm_compute. reflexivity.
Defined.

Lemma importFromMemory_sparse_hybrid_fields_witness :
  exists st,
    importFromMemory sparse_hybrid_hip_image = Ok st
    /\ getNumCoupons sparse_hybrid_hip_image = Ok (NumCoupons st)
    /\ getSvLengthInts sparse_hybrid_hip_image = Ok (CsvLengthInts st)
    /\ getSvStream sparse_hybrid_hip_image = Ok (CsvStream st)
    /\ getKxP sparse_hybrid_hip_image = Ok (Kxp st)
    /\ getHipAccum sparse_hybrid_hip_image = Ok (HipEstAccum st).
Proof.
  eexists. split; [vm_compute; reflexivity|].
  match goal with
  | |- getNumCoupons _ = Ok (NumCoupons ?st) /\ _ =>
      destruct (@importFromMemory_sparse_hybrid_fields ref_pre
                  sparse_hybrid_hip_image st 3)
        as (Hn & Hsv & Hstream & _ & Hhip);
        [vm_compute; reflexivity | vm_compute; reflexivity
         | right; reflexivity |]
  end.
  destruct (Hhip eq_refl) as [Hk Hh].
  repeat apply conj; assumption.
Defined.

Lemma importFromMemory_empty_fields_witness :
  exists st,
    importFromMemory empty_merged_image = Ok st
    /\ NumCoupons st = 0 /\ NumCsv st = 0
    /\ CsvLengthInts st = 0 /\ CsvStream st = []
    /\ Kxp st = float64_of_int (int (Z.shiftl 1 (LgK st)))
    /\ HipEstAccum st = S754_zero false
    /\ checkCapacity (len empty_merged_image) 8 = Ok tt.
Proof.
  eexists. split; [vm_compute; reflexivity|].
  apply (@importFromMemory_empty_fields ref_pre empty_merged_image _ 0);
    [vm_compute; reflexivity | vm_compute; reflexivity | left; reflexivity].
Defined.

Lemma importFromMemory_state_format_witness :
  exists st,
    importFromMemory sparse_hybrid_hip_image = Ok st
    /\ getFormat st = 5 - 3.
Proof.
  eexists. split; [vm_compute; reflexivity|].
  match goal with
  | |- getFormat ?st = _ =>
      destruct (@importFromMemory_state_format ref_pre
                  sparse_hybrid_hip_image st 3)
        as (_ & Hsparse);
        [vm_compute; reflexivity | vm_compute; reflexivity |]
  end.
  apply (proj1 (Hsparse ltac:(lia))). cbn. lia.
Defined.

End ExtrasExamples.

Section UncompressExtrasExamples.
Import GoInt Cpc CpcReference TestHashers.

Lemma uncompress_failures_witness :
  (exists c,
     LgK c = 3
     /\ uncompress c 9001 = Err "lgK out of range"
     /\ (NewCpcSketch (LgK c) 9001 = Err "lgK out of range"
         \/ (exists sk0, NewCpcSketch (LgK c) 9001 = Ok sk0)
            /\ determineCorrectOffset (LgK c) (NumCoupons c)
               = Err "lgK out of range"))
  /\ (exists sk sk0,
        uncompress (state_of 3 2 0 false) 9001 = Ok sk
        /\ NewCpcSketch (LgK (state_of 3 2 0 false)) 9001 = Ok sk0
        /\ lgK sk = lgK sk0 /\ Cpc.seed sk = Cpc.seed sk0).
Proof.
  split.
  - pose (c := {| CsvIsValid := false; WindowIsValid := false; LgK := 3;
                  SeedHash := 0; FiCol := 0; MergeFlag := true;
                  NumCoupons := 0; Kxp := S754_zero false;
                  HipEstAccum := S754_zero false; NumCsv := 0;
                  CsvStream := []; CsvLengthInts := 0; CwStream := [];
                  CwLengthInts := 0 |}).
    destruct (@uncompress_failures ref_ops c 9001) as (Ha & Hb & _).
    assert (uncompress c 9001 = Err "lgK out of range") as Herr
      by (apply Ha; vm_compute; reflexivity).
    exists c. split; [reflexivity|]. split; [exact Herr|].
    apply Hb, Herr.
  - eexists.
    assert (forall sk,
              uncompress (state_of 3 2 0 false) 9001 = Ok sk ->
              exists sk0,
                uncompress (state_of 3 2 0 false) 9001 = Ok sk
                /\ NewCpcSketch (LgK (state_of 3 2 0 false)) 9001 = Ok sk0
                /\ lgK sk = lgK sk0 /\ Cpc.seed sk = Cpc.seed sk0) as Hc.
    { intros sk Hok.
      destruct (proj2 (proj2 (@uncompress_failures ref_ops
                                (state_of 3 2 0 false) 9001)) sk Hok)
        as (sk0 & Hnew & Hl & Hs).
      exists sk0. repeat apply conj; assumption. }
    apply Hc. vm_compute. reflexivity.
Defined.

Lemma uncompress_reads_six_fields_witness :
  uncompress (state_of 3 2 0 false) 9001
  = uncompress (set_CsvStream [7; 8] (set_CsvIsValid true
                  (set_SeedHash 1 (state_of 3 2 0 false)))) 9001.
Proof.
  apply (@uncompress_reads_six_fields ref_ops); reflexivity.
Defined.

Lemma importFromMemory_uncompress_witness :
  exists st sk,
    importFromMemory sparse_hybrid_hip_image = Ok st
    /\ uncompress st 9001 = Ok sk
    /\ mergeFlag sk = negb (Z.testbit 3 0)
    /\ fiCol sk = 0
    /\ 0 <= numCoupons sk < 2 ^ 32
    /\ getNumCoupons sparse_hybrid_hip_image = Ok (numCoupons sk).
Proof.
  do 2 eexists. split; [vm_compute; reflexivity|].
  split; [vm_compute; reflexivity|].
  match goal with
  | |- mergeFlag ?sk = _ /\ _ =>
      destruct (@importFromMemory_uncompress ref_pre ref_ops
                  sparse_hybrid_hip_image _ 3 9001 sk
                  ltac:(vm_compute; reflexivity)
                  ltac:(vm_compute; reflexivity)
                  ltac:(vm_compute; reflexivity))
        as (_ & Hm & Hfi & Hr & _ & Hn)
  end.
  repeat (split; [assumption|]). apply Hn. right. reflexivity.
Defined.

Lemma IntHasher_Hash_bytes_witness :
  IntHasher_Hash (fun seed bs => Z.lxor seed (le_value bs)) 9001
    {| scratch := [xff; xff; xff; xff; xff; xff; xff; xff]%byte |} (-2)
  = Ok (Z.lxor 9001 (le_value (le_bytes 8 (uint64 (-2)))))
  /\ int (le_value (le_bytes 8 (uint64 (-2)))) = -2.
Proof.
  destruct (IntHasher_Hash_bytes
              (fun seed bs => Z.lxor seed (le_value bs)) 9001
              {| scratch := [xff; xff; xff; xff; xff; xff; xff; xff]%byte |}
              (-2) eq_refl ltac:(unfold in_int; lia))
    as (Hh & _ & Hb & _).
  split; assumption.
Defined.

End UncompressExtrasExamples.
